(** * Agentic data analysis dashboard: chat session, visualization preview,
      table proxy route and report page

    A shallow embedding of the client-side logic of the dashboard:

    - [providers/chat-provider.tsx]: the chat session state and its
      operations [addMessage], [updateMessage], [clearMessages];
    - the chat panel ([components/chat/chat-interface.tsx]):
      [handleSendMessage] and [VisualizationPreview];
    - [app/api/tables/[tableName]/route.ts]: the [GET] proxy handler;
    - [app/reports/page.tsx]: [buildQuery] and [handleGenerate].

    JavaScript values are modelled by the type [JS.value]; code that can
    throw or that has an observable effect runs in the state-and-exception
    monad [Eff.M].  Asynchronous handlers are cut at their [await]: what the
    environment answers (the outcome of [fetch], the readings of the clock)
    is an argument of the continuation. *)

From Stdlib Require Import ZArith String Ascii List Bool Lia DecimalString.
From Stdlib Require Import DecimalFacts DecimalPos DecimalZ.
From stdpp Require Import base option list strings.

Set Default Proof Using "Type".
Set Warnings "-register-all".

(* ===================================================================== *)
(** * JavaScript values and the operators the sources use *)
(* ===================================================================== *)

Module JS.

(** The values that reach the code: what [JSON.parse] produces, plus
    [undefined].  A string is a sequence of code units below 256.  Numbers
    are integers: no arithmetic is done on the numbers of a payload, only
    truthiness is observed.  The properties of an object are listed in the
    order in which [Object.keys] enumerates them. *)
Inductive value : Type :=
| VUndefined
| VNull
| VBool (b : bool)
| VNum (n : Z)
| VStr (s : string)
| VArr (items : list value)
| VObj (props : list (string * value)).

Inductive exn : Type :=
| TypeError (msg : string)
| SyntaxError (msg : string)
| Error (msg : string).

(** ** Truthiness, [||], [??], [!==] *)

Definition truthy_string (s : string) : bool :=
  match s with
  | EmptyString => false
  | String _ _ => true
  end.

Definition truthy (v : value) : bool :=
  match v with
  | VUndefined | VNull => false
  | VBool b => b
  | VNum n => negb (n =? 0)%Z
  | VStr s => truthy_string s
  | VArr _ | VObj _ => true
  end.

Definition nullish (v : value) : bool :=
  match v with
  | VUndefined | VNull => true
  | _ => false
  end.

(** [a || b] on already evaluated operands. *)
Definition or_else (a b : value) : value := if truthy a then a else b.

(** [a ?? b] *)
Definition coalesce (a b : value) : value := if nullish a then b else a.

(** [a === b] where [a] is a string. *)
Definition strict_eq_string (a : string) (b : value) : bool :=
  match b with
  | VStr s => String.eqb a s
  | _ => false
  end.

Definition isArray (v : value) : bool :=
  match v with
  | VArr _ => true
  | _ => false
  end.

(** ** Property access

    [lookup_prop] reads an own property of an object.  [get] is [v.name]:
    it throws on [undefined] and [null].  The names the sources read
    ([data], [config], [type], [labelKey], [xKey], [valueKey], [yKey],
    [conversationId], [response], [visualization]) are neither indices,
    nor [length], nor inherited from a prototype, so reading them from an
    array or a primitive gives [undefined]. *)
Fixpoint lookup_prop (name : string) (props : list (string * value)) : value :=
  match props with
  | [] => VUndefined
  | (k, v) :: rest => if String.eqb k name then v else lookup_prop name rest
  end.

Definition get (v : value) (name : string) : exn + value :=
  match v with
  | VUndefined => inl (TypeError "Cannot read properties of undefined")
  | VNull => inl (TypeError "Cannot read properties of null")
  | VObj props => inr (lookup_prop name props)
  | VBool _ | VNum _ | VStr _ | VArr _ => inr VUndefined
  end.

(** [v?.name] *)
Definition get_opt (v : value) (name : string) : exn + value :=
  if nullish v then inr VUndefined else get v name.

(** ** [Object.keys] *)

Definition index_string (i : nat) : string :=
  NilZero.string_of_uint (Nat.to_uint i).

Definition index_keys (n : nat) : list string := map index_string (seq 0 n).

Definition Object_keys (v : value) : exn + list string :=
  match v with
  | VUndefined | VNull =>
      inl (TypeError "Cannot convert undefined or null to object")
  | VObj props => inr (map fst props)
  | VArr items => inr (index_keys (List.length items))
  | VStr s => inr (index_keys (String.length s))
  | VBool _ | VNum _ => inr []
  end.

(** [keys[0]] *)
Definition first_key (keys : list string) : value :=
  match keys with
  | [] => VUndefined
  | k :: _ => VStr k
  end.

(** [keys.find(pred)] *)
Definition find_key (pred : string -> bool) (keys : list string) : value :=
  match List.find pred keys with
  | Some k => VStr k
  | None => VUndefined
  end.

(** ** [String.prototype.trim]

    The white space and line terminators below 256: TAB, LF, VT, FF, CR,
    SP and NBSP. *)
Definition is_white_space (c : ascii) : bool :=
  let n := nat_of_ascii c in
  ((9 <=? n) && (n <=? 13)) || (n =? 32) || (n =? 160).

Fixpoint trimStart (s : string) : string :=
  match s with
  | EmptyString => EmptyString
  | String c rest => if is_white_space c then trimStart rest else s
  end.

Fixpoint trimEnd (s : string) : string :=
  match s with
  | EmptyString => EmptyString
  | String c rest =>
      match trimEnd rest with
      | EmptyString => if is_white_space c then EmptyString else String c EmptyString
      | kept => String c kept
      end
  end.

Definition trim (s : string) : string := trimEnd (trimStart s).

(** [n.toString()] for an integer [n]. *)
Definition toString (n : Z) : string := NilZero.string_of_int (Z.to_int n).

(** [parts.join(sep)] *)
Fixpoint join (sep : string) (parts : list string) : string :=
  match parts with
  | [] => EmptyString
  | [p] => p
  | p :: rest => p +:+ sep +:+ join sep rest
  end.

End JS.

(* ===================================================================== *)
(** * A state-and-exception monad *)
(* ===================================================================== *)

Module Eff.
Import JS.

Section Monad.
Context {S : Type}.

(** A computation reads and writes a state [S] and ends with a value or
    with a thrown exception.  The state written before a throw stays
    written. *)
Definition M (A : Type) : Type := S -> S * (exn + A).

Definition ret {A} (a : A) : M A := fun s => (s, inr a).

Definition bind {A B} (m : M A) (k : A -> M B) : M B :=
  fun s =>
    match m s with
    | (s', inl e) => (s', inl e)
    | (s', inr a) => k a s'
    end.

Definition throw {A} (e : exn) : M A := fun s => (s, inl e).

Definition lift {A} (r : exn + A) : M A := fun s => (s, r).

Definition modify (f : S -> S) : M unit := fun s => (f s, inr tt).

Definition read : M S := fun s => (s, inr s).

(** [try { body } catch (e) { handler e }] *)
Definition try_catch {A} (body : M A) (handler : exn -> M A) : M A :=
  fun s =>
    match body s with
    | (s', inl e) => handler e s'
    | (s', inr a) => (s', inr a)
    end.

(** [try { body } finally { cleanup }], for a cleanup that does not
    throw. *)
Definition finally {A} (body : M A) (cleanup : S -> S) : M A :=
  fun s => let (s', r) := body s in (cleanup s', r).
End Monad.

Arguments M : clear implicits.

(** A computation that never throws. *)
Definition returns {S A : Type} (m : M S A) : Prop :=
  forall s, exists s' a, m s = (s', inr a).

Declare Scope eff_scope.
Delimit Scope eff_scope with eff.
Notation "x <- m ;; k" := (bind m (fun x => k))
  (at level 90, m at next level, right associativity) : eff_scope.

End Eff.

(* ===================================================================== *)
(** * What [fetch] answers *)
(* ===================================================================== *)

Module Fetch.
Import JS.

(** The outcome of [await fetch(...)] followed by [response.json()]: the
    promise is rejected (network fault), or a response arrives with a status
    and a body; [body = None] is a body that is not JSON, on which
    [response.json()] rejects. *)
Inductive FetchResult : Type :=
| Rejected
| Responded (status : Z) (body : option value).

(** [response.ok] *)
Definition ok (status : Z) : bool := ((200 <=? status) && (status <=? 299))%Z.

(** The request failed: the fetch was rejected, or the status is not 2xx. *)
Definition request_failed (r : FetchResult) : bool :=
  match r with
  | Rejected => true
  | Responded status _ => negb (ok status)
  end.

(** The browser console: the label and the error of each [console.error]. *)
Definition Console : Type := list (string * exn).

End Fetch.

(* ===================================================================== *)
(** * providers/chat-provider.tsx *)
(* ===================================================================== *)

Module Provider.
Import JS.

Inductive Role : Type := user | ai.

Definition Role_eqb (a b : Role) : bool :=
  match a, b with
  | user, user | ai, ai => true
  | _, _ => false
  end.

(** [interface ChatMessage].  [content] is declared a string and
    [visualization] an optional object; the assistant message stores the
    backend's [response] and [visualization] as they arrive, so both fields
    hold a run-time value.  An absent [visualization] reads as
    [undefined]. *)
Record ChatMessage : Type := mkChatMessage {
  id : string;
  role : Role;
  content : value;
  timestamp : Z;
  visualization : value
}.

(** [Partial<ChatMessage>]: the properties the patch object has. *)
Record Patch : Type := mkPatch {
  patch_id : option string;
  patch_role : option Role;
  patch_content : option value;
  patch_timestamp : option Z;
  patch_visualization : option value
}.

(** [{ ...msg, ...patch }] *)
Definition spread (msg : ChatMessage) (patch : Patch) : ChatMessage :=
  {| id := default (id msg) (patch_id patch);
     role := default (role msg) (patch_role patch);
     content := default (content msg) (patch_content patch);
     timestamp := default (timestamp msg) (patch_timestamp patch);
     visualization := default (visualization msg) (patch_visualization patch) |}.

(** The two [useState] cells of [ChatProvider].  [conversationId] is
    declared [string | null]; [VNull] is the unset identifier. *)
Record ChatState : Type := mkChatState {
  messages : list ChatMessage;
  conversationId : value
}.

Definition dquote : string := String (ascii_of_nat 34) EmptyString.

Definition greeting_text : string :=
  "Hello! I'm your AI data analyst. How can I help you today? Try asking "
  +:+ dquote +:+ "Show me sales by country" +:+ dquote +:+ " or "
  +:+ dquote +:+ "Generate a report" +:+ dquote +:+ ".".

Definition initial (now : Z) : ChatState :=
  {| messages :=
       [ {| id := "1"; role := ai; content := VStr greeting_text;
            timestamp := now; visualization := VUndefined |} ];
     conversationId := VNull |}.

(** [setMessages(updater)] and [setConversationId(value)] of React. *)
Definition setMessages (updater : list ChatMessage -> list ChatMessage)
    (s : ChatState) : ChatState :=
  {| messages := updater (messages s); conversationId := conversationId s |}.

Definition setConversationId (c : value) (s : ChatState) : ChatState :=
  {| messages := messages s; conversationId := c |}.

Definition addMessage (message : ChatMessage) : ChatState -> ChatState :=
  setMessages (fun prev => prev ++ [message]).

Definition updateMessage (id0 : string) (patch : Patch) : ChatState -> ChatState :=
  setMessages
    (fun prev =>
       map (fun msg => if String.eqb (id msg) id0 then spread msg patch else msg)
           prev).

Definition clearMessages (s : ChatState) : ChatState :=
  setConversationId VNull (setMessages (fun _ => []) s).

(** A sequence of [addMessage] calls, in call order. *)
Definition addMessages (ms : list ChatMessage) (s : ChatState) : ChatState :=
  fold_left (fun st m => addMessage m st) ms s.

Definition ids (s : ChatState) : list string := map id (messages s).

End Provider.

(* ===================================================================== *)
(** * The chat panel: [handleSendMessage] and [VisualizationPreview] *)
(* ===================================================================== *)

Module Chat.
Import JS Eff Fetch Provider.
Local Open Scope eff_scope.

(** ** [handleSendMessage] *)

(** What the handler reads and writes: the provider's state, the two local
    [useState] cells [input] and [isLoading], and the console. *)
Record Session : Type := mkSession {
  chat : ChatState;
  input : string;
  isLoading : bool;
  console : Console
}.

Definition on_chat (f : ChatState -> ChatState) (w : Session) : Session :=
  {| chat := f (chat w); input := input w; isLoading := isLoading w;
     console := console w |}.

Definition setInput (s : string) (w : Session) : Session :=
  {| chat := chat w; input := s; isLoading := isLoading w; console := console w |}.

Definition setIsLoading (b : bool) (w : Session) : Session :=
  {| chat := chat w; input := input w; isLoading := b; console := console w |}.

Definition console_error (label : string) (e : exn) (w : Session) : Session :=
  {| chat := chat w; input := input w; isLoading := isLoading w;
     console := console w ++ [(label, e)] |}.

(** The request [fetch('/api/chat', ...)] sends: the two properties of the
    JSON body. *)
Record ChatRequest : Type := mkChatRequest {
  request_message : string;
  request_conversationId : value
}.

(** [text || input.trim()] *)
Definition messageText_of (text : option string) (w : Session) : string :=
  match text with
  | Some t => if truthy_string t then t else trim (input w)
  | None => trim (input w)
  end.

(** The handler up to its [await]: [now] is the reading of [Date.now()],
    [stamp] that of [new Date()].  The result is the session as the handler
    leaves it and the request it issued, if any.  The [conversationId] of the
    request is the one of the render the handler belongs to: the session's,
    for a handler run from an event of the current render. *)
Definition handleSendMessage_begin (text : option string) (now stamp : Z)
    (w : Session) : Session * option ChatRequest :=
  let messageText := messageText_of text w in
  if negb (truthy_string messageText) then (w, None)
  else
    let w1 := setIsLoading true (setInput "" w) in
    let userMessage :=
      {| id := toString now; role := user; content := VStr messageText;
         timestamp := stamp; visualization := VUndefined |} in
    (on_chat (addMessage userMessage) w1,
     Some {| request_message := messageText;
             request_conversationId := conversationId (chat w) |}).

(** [await fetch(...)], [if (!response.ok) throw ...], [await response.json()] *)
Definition await_data (r : FetchResult) : M Session value :=
  match r with
  | Rejected => throw (TypeError "Failed to fetch")
  | Responded status body =>
      if negb (ok status) then throw (Error "API request failed")
      else
        match body with
        | None => throw (SyntaxError "Unexpected token")
        | Some data => ret data
        end
  end.

Definition apology : string :=
  "Sorry, I'm having trouble connecting to the backend. Please check if the API server is running.".

(** The body of the [try] block. *)
Definition handleSendMessage_try (r : FetchResult) (now stamp : Z) : M Session unit :=
  data <- await_data r ;;
  cid <- lift (get data "conversationId") ;;
  _ <- (if truthy cid then modify (on_chat (setConversationId cid)) else ret tt) ;;
  let messageId := toString (now + 1) in
  response <- lift (get data "response") ;;
  viz <- lift (get data "visualization") ;;
  modify
    (on_chat
       (addMessage
          {| id := messageId; role := ai;
             content := or_else response (VStr "No response from AI");
             timestamp := stamp; visualization := viz |})).

(** The body of the [catch] block. *)
Definition handleSendMessage_catch (now stamp : Z) (e : exn) : M Session unit :=
  _ <- modify (console_error "Chat error:" e) ;;
  modify
    (on_chat
       (addMessage
          {| id := toString (now + 1); role := ai; content := VStr apology;
             timestamp := stamp; visualization := VUndefined |})).

(** The two messages a send can append besides the assistant's answer. *)
Definition userMessage_of (messageText : string) (now stamp : Z) : ChatMessage :=
  {| id := toString now; role := user; content := VStr messageText;
     timestamp := stamp; visualization := VUndefined |}.

Definition errorMessage_of (now stamp : Z) : ChatMessage :=
  {| id := toString (now + 1); role := ai; content := VStr apology;
     timestamp := stamp; visualization := VUndefined |}.

(** The handler from its [await] on: [try], [catch], [finally]. *)
Definition handleSendMessage_resume (r : FetchResult) (now stamp : Z) : M Session unit :=
  finally
    (try_catch (handleSendMessage_try r now stamp) (handleSendMessage_catch now stamp))
    (setIsLoading false).

(** One whole send with nothing else happening in between: the clock reads
    [now1], [stamp1] before the request, the backend answers [r], the clock
    reads [now2], [stamp2] after it. *)
Definition handleSendMessage (text : option string) (now1 stamp1 : Z)
    (r : FetchResult) (now2 stamp2 : Z) (w : Session) : Session * (exn + unit) :=
  match handleSendMessage_begin text now1 stamp1 w with
  | (w1, None) => (w1, inr tt)
  | (w1, Some _) => handleSendMessage_resume r now2 stamp2 w1
  end.

(** ** What can happen to a session

    The operations the provider exports, and the two halves of a send. *)
Inductive action : Type :=
| AddMessage (message : ChatMessage)
| UpdateMessage (id0 : string) (patch : Patch)
| ClearMessages
| Send (text : option string) (now stamp : Z)
| Reply (r : FetchResult) (now stamp : Z).

Definition step (a : action) (w : Session) : Session :=
  match a with
  | AddMessage message => on_chat (addMessage message) w
  | UpdateMessage id0 patch => on_chat (updateMessage id0 patch) w
  | ClearMessages => on_chat clearMessages w
  | Send text now stamp => fst (handleSendMessage_begin text now stamp w)
  | Reply r now stamp => fst (handleSendMessage_resume r now stamp w)
  end.

Definition run (acts : list action) (w : Session) : Session :=
  fold_left (fun st a => step a st) acts w.

(** ** [VisualizationPreview] *)

(** The calls that resolve the keys of a row: [Object.keys(sample)] and
    [keys.find(...)].  The component logs each one it makes. *)
Inductive call : Type :=
| CallObjectKeys (target : value)
| CallFind (keys : list string).

Definition Trace : Type := list call.

Definition tell (c : call) : M Trace unit := modify (fun log => log ++ [c]).

Definition objectKeys (v : value) : M Trace (list string) :=
  _ <- tell (CallObjectKeys v) ;; lift (Object_keys v).

Definition findKey (pred : string -> bool) (keys : list string) : M Trace value :=
  _ <- tell (CallFind keys) ;; ret (find_key pred keys).

(** [a || b]: [b] is evaluated only when [a] is falsy. *)
Definition orM {S : Type} (a b : M S value) : M S value :=
  x <- a ;; if truthy x then ret x else b.

(** [visualization.config?.name] *)
Definition config_field (visualization : value) (name : string) : M Trace value :=
  config <- lift (get visualization "config") ;;
  lift (get_opt config name).

(** No explicit field mapping: [config] is missing or [null], or none of
    its four keys holds a truthy value. *)
Definition no_field_mapping (visualization : value) : bool :=
  match get visualization "config" with
  | inr config =>
      forallb
        (fun name =>
           match get_opt config name with
           | inr x => negb (truthy x)
           | inl _ => false
           end)
        ["labelKey"; "xKey"; "valueKey"; "yKey"]
  | inl _ => false
  end.

(** The three chart components; each receives [data], [labelKey] and
    [valueKey]. *)
Inductive chart : Type :=
| BarPreview (data : list value) (labelKey valueKey : value)
| LinePreview (data : list value) (labelKey valueKey : value)
| PiePreview (data : list value) (labelKey valueKey : value).

(** What the component returns: one of the two placeholders, or the framed
    preview titled with [visualization.type] and holding the chart whose
    kind that type names, if any. *)
Inductive rendered : Type :=
| Unavailable
| CannotDetermine
| Preview (type : value) (child : option chart).

Definition chart_of (type : value) (data : list value) (labelKey valueKey : value)
    : option chart :=
  if strict_eq_string "bar" type then Some (BarPreview data labelKey valueKey)
  else if strict_eq_string "line" type then Some (LinePreview data labelKey valueKey)
  else if strict_eq_string "pie" type then Some (PiePreview data labelKey valueKey)
  else None.

(** The resolution of the two fields: [sample], [keys], [labelKey] and
    [valueKey] of the component, for a [data] that is not empty. *)
Definition resolveFields (visualization : value) (data : list value)
    : M Trace (value * value) :=
  let sample := coalesce (nth 0 data VUndefined) (VObj []) in
  keys <- objectKeys sample ;;
  labelKey <-
    orM (config_field visualization "labelKey")
        (orM (config_field visualization "xKey") (ret (first_key keys))) ;;
  valueKey <-
    orM (config_field visualization "valueKey")
        (orM (config_field visualization "yKey")
             (orM (findKey (fun key => negb (strict_eq_string key labelKey)) keys)
                  (ret (first_key keys)))) ;;
  ret (labelKey, valueKey).

Definition VisualizationPreview (visualization : value) : M Trace rendered :=
  d <- lift (get visualization "data") ;;
  let data := match d with VArr items => items | _ => [] end in
  if (List.length data =? 0)%nat then ret Unavailable
  else
    fields <- resolveFields visualization data ;;
    let labelKey := fst fields in
    let valueKey := snd fields in
    if negb (truthy labelKey) || negb (truthy valueKey) then ret CannotDetermine
    else
      type <- lift (get visualization "type") ;;
      ret (Preview type (chart_of type data labelKey valueKey)).

(** The place where a message shows its preview:
    [msg.visualization && msg.role === "ai" && <VisualizationPreview ... />] *)
Definition renderVisualization (msg : ChatMessage) : M Trace (option rendered) :=
  if truthy (visualization msg) && Role_eqb (role msg) ai then
    r <- VisualizationPreview (visualization msg) ;; ret (Some r)
  else ret None.

(** The outcome of a run started with an empty trace. *)
Definition exec {A : Type} (m : M Trace A) : Trace * (exn + A) := m [].

(** ** What the panel shows around the log *)

Definition SUGGESTED_QUERIES : list string :=
  ["Show sales by country"; "Top 5 cities"; "Generate report"; "Upload data"].

(** [messages.length === 0 && ...]: the quick queries are on screen. *)
Definition showsSuggestions (w : Session) : bool :=
  (List.length (messages (chat w)) =? 0)%nat.

(** [disabled={isLoading || !input.trim()}] of the send button. *)
Definition sendDisabled (w : Session) : bool :=
  isLoading w || negb (truthy_string (trim (input w))).

Definition CHART_COLORS : list string :=
  ["#0ea5e9"; "#22d3ee"; "#a855f7"; "#f472b6"; "#fb923c"; "#34d399"].

(** [CHART_COLORS[index % CHART_COLORS.length]]: [None] is [undefined]. *)
Definition cell_fill (index : nat) : option string :=
  nth_error CHART_COLORS (index mod List.length CHART_COLORS).

(** [data.map((_, index) => <Cell fill={...} />)] of [PiePreview]. *)
Definition pie_cells (data : list value) : list (option string) :=
  map cell_fill (seq 0 (List.length data)).

(** ** Whole turns

    A turn is a send together with what the environment answers; a
    conversation is a list of turns, each one finished before the next
    starts. *)
Record Turn : Type := mkTurn {
  turn_text : option string;
  turn_now1 : Z;
  turn_stamp1 : Z;
  turn_result : FetchResult;
  turn_now2 : Z;
  turn_stamp2 : Z
}.

Definition take_turn (t : Turn) (w : Session) : Session :=
  fst (handleSendMessage (turn_text t) (turn_now1 t) (turn_stamp1 t)
         (turn_result t) (turn_now2 t) (turn_stamp2 t) w).

Definition take_turns (ts : list Turn) (w : Session) : Session :=
  fold_left (fun st t => take_turn t st) ts w.

(** The clock of a conversation: every reading is at least [bound], no
    reading is smaller than the one before it, and a send comes at least two
    milliseconds after the reading of the answer before it. *)
Fixpoint clock_ok (bound : Z) (ts : list Turn) : Prop :=
  match ts with
  | [] => True
  | t :: rest =>
      (bound <= turn_now1 t)%Z /\ (turn_now1 t <= turn_now2 t)%Z
      /\ clock_ok (turn_now2 t + 2) rest
  end.

(** Every identifier of the log is the decimal writing of a number below
    [bound]. *)
Definition ids_below (bound : Z) (s : ChatState) : Prop :=
  Forall (fun i => exists n : Z, i = toString n /\ (n < bound)%Z) (ids s).

End Chat.

(* ===================================================================== *)
(** * app/api/tables/[tableName]/route.ts *)
(* ===================================================================== *)

Module TableRoute.
Import JS Eff Fetch.
Local Open Scope eff_scope.

(** [process.env.API_BASE_URL || 'http://localhost:8000'] *)
Definition API_BASE_URL (env : option string) : string :=
  match env with
  | Some base => if truthy_string base then base else "http://localhost:8000"
  | None => "http://localhost:8000"
  end.

Record NextResponse : Type := mkNextResponse {
  status : Z;
  body : value
}.

(** [NextResponse.json(body, init)]: the status is 200 unless [init] gives
    one. *)
Definition NextResponse_json (body0 : value) (init_status : option Z) : NextResponse :=
  {| status := default 200%Z init_status; body := body0 |}.

(** The address the handler fetches. *)
Definition GET_url (env : option string) (tableName : string) : string :=
  API_BASE_URL env +:+ "/api/tables/" +:+ tableName.

Definition error_body : value :=
  VObj [("error", VStr "Failed to fetch table information")].

(** The [try] block, from the answer of the backend on. *)
Definition GET_try (r : FetchResult) : M Console NextResponse :=
  match r with
  | Rejected => throw (TypeError "fetch failed")
  | Responded backend_status backend_body =>
      if negb (ok backend_status) then
        throw (Error ("Backend error: " +:+ toString backend_status))
      else
        match backend_body with
        | None => throw (SyntaxError "Unexpected token")
        | Some data => ret (NextResponse_json data None)
        end
  end.

(** The [catch] block. *)
Definition GET_catch (e : exn) : M Console NextResponse :=
  _ <- modify (fun c : Console => c ++ [("Table info API error:", e)]) ;;
  ret (NextResponse_json error_body (Some 500%Z)).

Definition GET (r : FetchResult) : M Console NextResponse :=
  try_catch (GET_try r) GET_catch.

End TableRoute.

(* ===================================================================== *)
(** * app/reports/page.tsx *)
(* ===================================================================== *)

Module Reports.
Import JS Eff.
Local Open Scope eff_scope.

Record ReportType : Type := mkReportType {
  type_label : string;
  type_value : string;
  type_template : string
}.

Definition REPORT_TYPES : list ReportType :=
  [ mkReportType "Executive Summary" "executive-summary"
      "Executive summary of key performance metrics";
    mkReportType "Detailed Analysis" "detailed-analysis"
      "Detailed breakdown of sales, customers, and products";
    mkReportType "Custom Report" "custom" "Custom analysis" ].

Record TimePeriod : Type := mkTimePeriod {
  period_label : string;
  period_value : string
}.

Definition TIME_PERIODS : list TimePeriod :=
  [ mkTimePeriod "Last 30 days" "30d";
    mkTimePeriod "Last Quarter" "quarter";
    mkTimePeriod "Last Year" "year";
    mkTimePeriod "Custom Range" "custom" ].

(** The three [useState] cells of the page. *)
Record Page : Type := mkPage {
  reportType : string;
  timePeriod : string;
  notes : string
}.

Definition initial_page : Page :=
  {| reportType := "executive-summary"; timePeriod := "30d"; notes := "" |}.

(** [list.find(pred)?.field || ""] *)
Definition found_or_empty {A : Type} (field : A -> string) (found : option A) : string :=
  match found with
  | Some x => if truthy_string (field x) then field x else ""
  | None => ""
  end.

Definition buildQuery (p : Page) : string :=
  let typeTemplate :=
    found_or_empty type_template
      (List.find (fun t => String.eqb (type_value t) (reportType p)) REPORT_TYPES) in
  let periodTemplate :=
    found_or_empty period_label
      (List.find (fun t => String.eqb (period_value t) (timePeriod p)) TIME_PERIODS) in
  join " | "
    (List.filter truthy_string
       [typeTemplate; "Time period: " +:+ periodTemplate; trim (notes p)]).

(** What [useReportGeneration] hands to the page, and the argument of
    [generateReport]. *)
Record ReportStatus : Type := mkReportStatus {
  status_label : string;
  status_message : string;
  progress : Z;
  fileUrl : option string
}.

Record Hook : Type := mkHook {
  generating : bool;
  status : option ReportStatus;
  error : option string
}.

Record ReportRequest : Type := mkReportRequest {
  query : string;
  format : string
}.

(** What a generate call can touch: the report-generation state held by the
    hook, and the network, as the list of the requests issued so far. *)
Record World : Type := mkWorld {
  hook : Hook;
  network : list string
}.

Section HandleGenerate.

(** [generateReport] comes from [lib/api-client]; the page only calls it.
    It is taken as it comes: any computation on the hook's state and the
    network. *)
Variable generateReport : ReportRequest -> M World unit.

(** [handleGenerate] from the point where [query] is bound. *)
Definition handleGenerate_with (query0 : string) : M World unit :=
  if negb (truthy_string (trim query0)) then ret tt
  else generateReport {| query := query0; format := "pdf" |}.

Definition handleGenerate (p : Page) : M World unit :=
  w <- read ;;
  if generating (hook w) then ret tt
  else handleGenerate_with (buildQuery p).

End HandleGenerate.

End Reports.

(* ===================================================================== *)
(** * The other proxy routes: schema, activity, report, analysis, upload *)
(* ===================================================================== *)

Module Routes.
Import JS Eff Fetch TableRoute.
Local Open Scope eff_scope.

(** What a route hands to the backend.  A JSON text is represented by the
    value it denotes, so that [JSON.stringify(body)] of a parsed [body] is
    that [body]; a multipart form by its fields. *)
Inductive Payload : Type :=
| JsonText (v : value)
| FormData (fields : list (string * string)).

Record BackendCall : Type := mkBackendCall {
  call_url : string;
  call_method : string;
  call_body : option Payload
}.

(** What a handler can touch: the console and the backend, as the list of
    the calls made to it. *)
Record RouteWorld : Type := mkRouteWorld {
  console : Console;
  calls : list BackendCall
}.

(** [await fetch(url, init)]: the call is made, and [r] is what comes
    back. *)
Definition fetch (c : BackendCall) (r : FetchResult) : M RouteWorld (Z * option value) :=
  _ <- modify (fun w => {| console := console w; calls := calls w ++ [c] |}) ;;
  match r with
  | Rejected => throw (TypeError "fetch failed")
  | Responded backend_status backend_body => ret (backend_status, backend_body)
  end.

(** [if (!response.ok) throw ...; const data = await response.json();
    return NextResponse.json(data)], the same lines in every route. *)
Definition relay (response : Z * option value) : M RouteWorld NextResponse :=
  let (backend_status, backend_body) := response in
  if negb (ok backend_status) then
    throw (Error ("Backend error: " +:+ toString backend_status))
  else
    match backend_body with
    | None => throw (SyntaxError "Unexpected token")
    | Some data => ret (NextResponse_json data None)
    end.

(** The [catch] block of a route: [console.error(label, error)] and the
    answer [{ error: message }] with status 500. *)
Definition failure (label message : string) (e : exn) : M RouteWorld NextResponse :=
  _ <- modify (fun w => {| console := console w ++ [(label, e)]; calls := calls w |}) ;;
  ret (NextResponse_json (VObj [("error", VStr message)]) (Some 500%Z)).

(** [await request.json()] and [await request.formData()]: [None] is a
    request whose body cannot be read that way. *)
Definition read_body {A : Type} (incoming : option A) : M RouteWorld A :=
  match incoming with
  | Some body => ret body
  | None => throw (SyntaxError "Unexpected end of input")
  end.

(** app/api/schema/route.ts *)
Definition schema_GET (env : option string) (r : FetchResult) : M RouteWorld NextResponse :=
  try_catch
    (response <- fetch {| call_url := API_BASE_URL env +:+ "/api/schema";
                          call_method := "GET"; call_body := None |} r ;;
     relay response)
    (failure "Schema API error:" "Failed to fetch database schema").

(** app/api/activity/route.ts *)
Definition activity_GET (env : option string) (r : FetchResult) : M RouteWorld NextResponse :=
  try_catch
    (response <- fetch {| call_url := API_BASE_URL env +:+ "/api/activity";
                          call_method := "GET"; call_body := None |} r ;;
     relay response)
    (failure "Activity API error:" "Failed to fetch activity").

(** The report status route: [GET] with [params.taskId]. *)
Definition report_status_GET (env : option string) (taskId : string)
    (r : FetchResult) : M RouteWorld NextResponse :=
  try_catch
    (response <- fetch {| call_url := API_BASE_URL env +:+ "/api/report/status/" +:+ taskId;
                          call_method := "GET"; call_body := None |} r ;;
     relay response)
    (failure "Report status API error:" "Failed to check report status").

(** The report generation route: [POST] with a JSON body. *)
Definition report_generate_POST (env : option string) (incoming : option value)
    (r : FetchResult) : M RouteWorld NextResponse :=
  try_catch
    (body <- read_body incoming ;;
     response <- fetch {| call_url := API_BASE_URL env +:+ "/api/report/generate";
                          call_method := "POST";
                          call_body := Some (JsonText body) |} r ;;
     relay response)
    (failure "Report generation API error:" "Failed to generate report").

(** app/api/analysis/route.ts *)
Definition analysis_POST (env : option string) (incoming : option value)
    (r : FetchResult) : M RouteWorld NextResponse :=
  try_catch
    (body <- read_body incoming ;;
     response <- fetch {| call_url := API_BASE_URL env +:+ "/api/analysis";
                          call_method := "POST";
                          call_body := Some (JsonText body) |} r ;;
     relay response)
    (failure "Analysis API error:" "Failed to run analysis").

(** app/api/upload/route.ts *)
Definition upload_POST (env : option string)
    (incoming : option (list (string * string))) (r : FetchResult)
    : M RouteWorld NextResponse :=
  try_catch
    (formData <- read_body incoming ;;
     response <- fetch {| call_url := API_BASE_URL env +:+ "/api/upload";
                          call_method := "POST";
                          call_body := Some (FormData formData) |} r ;;
     relay response)
    (failure "Upload API error:" "Failed to upload file").

End Routes.

(* ===================================================================== *)
(** * app/analysis/page.tsx *)
(* ===================================================================== *)

Module Analysis.
Import JS.

Definition SUGGESTED_QUERIES : list string :=
  ["Show sales by city"; "Top 5 products"; "Revenue by quarter"; "Customer analysis"].

(** The [useState] cells of the page.  [result] is the answer of the last
    analysis or [null]; [analysisError] is a message or [null]. *)
Record Page : Type := mkPage {
  query : string;
  selectedTable : string;
  history : list string;
  result : value;
  analysisError : option string;
  isRunning : bool
}.

Definition initial_page : Page :=
  {| query := ""; selectedTable := ""; history := SUGGESTED_QUERIES;
     result := VNull; analysisError := None; isRunning := false |}.

(** The argument of [apiClient.runAnalysis]: [table] is
    [selectedTable || undefined]. *)
Record AnalysisRequest : Type := mkAnalysisRequest {
  request_query : string;
  request_table : option string
}.

(** What [await apiClient.runAnalysis(...)] gives: the answer, or a thrown
    value, which is an [Error] with its message or something else. *)
Inductive RunOutcome : Type :=
| Resolved (response : value)
| ThrewError (message : string)
| ThrewOther.

(** The updater of [setHistory]:
    [[trimmed, ...prev.filter((item) => item !== trimmed)].slice(0, 8)] *)
Definition next_history (trimmed : string) (prev : list string) : list string :=
  firstn 8 (trimmed :: List.filter (fun item => negb (String.eqb item trimmed)) prev).

(** [handleRunAnalysis] up to its [await]. *)
Definition handleRunAnalysis_begin (p : Page) : Page * option AnalysisRequest :=
  let trimmed := trim (query p) in
  if negb (truthy_string trimmed) then (p, None)
  else
    ({| query := query p; selectedTable := selectedTable p; history := history p;
        result := result p; analysisError := None; isRunning := true |},
     Some {| request_query := trimmed;
             request_table :=
               if truthy_string (selectedTable p) then Some (selectedTable p)
               else None |}).

(** [handleRunAnalysis] from its [await] on; [trimmed] is the constant the
    handler bound before the request. *)
Definition handleRunAnalysis_resume (trimmed : string) (outcome : RunOutcome)
    (p : Page) : Page :=
  match outcome with
  | Resolved response =>
      {| query := query p; selectedTable := selectedTable p;
         history := next_history trimmed (history p);
         result := response; analysisError := analysisError p; isRunning := false |}
  | ThrewError message =>
      {| query := query p; selectedTable := selectedTable p; history := history p;
         result := VNull; analysisError := Some message; isRunning := false |}
  | ThrewOther =>
      {| query := query p; selectedTable := selectedTable p; history := history p;
         result := VNull; analysisError := Some "Failed to run analysis";
         isRunning := false |}
  end.

Definition handleRunAnalysis (outcome : RunOutcome) (p : Page) : Page :=
  match handleRunAnalysis_begin p with
  | (p1, None) => p1
  | (p1, Some request) => handleRunAnalysis_resume (request_query request) outcome p1
  end.

Definition handleClear (p : Page) : Page :=
  {| query := ""; selectedTable := selectedTable p; history := history p;
     result := VNull; analysisError := None; isRunning := isRunning p |}.

Definition handleSelectHistory (entry : string) (p : Page) : Page :=
  {| query := entry; selectedTable := selectedTable p; history := history p;
     result := result p; analysisError := analysisError p; isRunning := isRunning p |}.

(** [Array.isArray(result?.data) ? result.data : []] *)
Definition rows (p : Page) : exn + list value :=
  match get_opt (result p) "data" with
  | inl e => inl e
  | inr (VArr items) => inr items
  | inr _ => inr []
  end.

(** [typeof v === "object"] *)
Definition typeof_object (v : value) : bool :=
  match v with
  | VNull | VArr _ | VObj _ => true
  | _ => false
  end.

(** [columnNames] of the rows. *)
Definition columnNames_of (rows0 : list value) : exn + list string :=
  if (List.length rows0 =? 0)%nat then inr []
  else
    let firstRow := nth 0 rows0 VUndefined in
    if typeof_object firstRow
       && negb (match firstRow with VNull => true | _ => false end)
    then Object_keys firstRow
    else inr [].

Definition columnNames (p : Page) : exn + list string :=
  match rows p with
  | inl e => inl e
  | inr rows0 => columnNames_of rows0
  end.

End Analysis.

(* ===================================================================== *)
(** * The dark mode provider *)
(* ===================================================================== *)

Module DarkMode.

(** The two [useState] cells, the class [dark] of the document element and
    the item [dark-mode] of the local storage. *)
Record Browser : Type := mkBrowser {
  isDark : bool;
  mounted : bool;
  classDark : bool;
  stored : option string
}.

(** A page freshly loaded over a storage. *)
Definition loaded (item : option string) : Browser :=
  {| isDark := false; mounted := false; classDark := false; stored := item |}.

Definition updateDarkMode (dark : bool) (b : Browser) : Browser :=
  {| isDark := isDark b; mounted := mounted b; classDark := dark; stored := stored b |}.

(** [String(b)] of a boolean. *)
Definition String_of_bool (b : bool) : string := if b then "true" else "false".

(** The effect run at mount; [prefersDark] is
    [window.matchMedia("(prefers-color-scheme: dark)").matches]. *)
Definition mount (prefersDark : bool) (b : Browser) : Browser :=
  let isDarkMode :=
    match stored b with
    | Some item => String.eqb item "true"
    | None => false
    end || prefersDark in
  updateDarkMode isDarkMode
    {| isDark := isDarkMode; mounted := true; classDark := classDark b;
       stored := stored b |}.

(** [toggleDarkMode], for a storage that takes the write. *)
Definition toggleDarkMode (b : Browser) : Browser :=
  let newState := negb (isDark b) in
  updateDarkMode newState
    {| isDark := newState; mounted := mounted b; classDark := classDark b;
       stored := Some (String_of_bool newState) |}.

(** The button is rendered only once mounted. *)
Definition showsToggle (b : Browser) : bool := mounted b.

End DarkMode.

(* ===================================================================== *)
(** * The navigation of the layout *)
(* ===================================================================== *)

Module Layout.

Record NavItem : Type := mkNavItem {
  name : string;
  href : string
}.

Definition navigation : list NavItem :=
  [ mkNavItem "Dashboard" "/"; mkNavItem "Explorer" "/explorer";
    mkNavItem "Analysis" "/analysis"; mkNavItem "Reports" "/reports";
    mkNavItem "Upload" "/upload"; mkNavItem "Settings" "/settings" ].

(** [pathname === item.href] *)
Definition isActive (pathname : string) (item : NavItem) : bool :=
  String.eqb pathname (href item).

End Layout.

(* ===================================================================== *)
(** * The settings page *)
(* ===================================================================== *)

Module Settings.
Import JS Eff Fetch.
Local Open Scope eff_scope.

(** ** Object spread *)

(** [{ ...props, [k]: v }]: the value of [k] is replaced where it stands,
    or [k] is added at the end. *)
Fixpoint set_prop (k : string) (v : value) (props : list (string * value))
    : list (string * value) :=
  match props with
  | [] => [(k, v)]
  | (k', v') :: rest =>
      if String.eqb k' k then (k, v) :: rest else (k', v') :: set_prop k v rest
  end.

(** The own enumerable properties a spread copies: those of an object, the
    indices of an array or of a string, nothing for the other values. *)
Definition own_props (v : value) : list (string * value) :=
  match v with
  | VObj props => props
  | VArr items => combine (index_keys (List.length items)) items
  | VStr s =>
      combine (index_keys (String.length s))
              (map (fun c => VStr (String c EmptyString)) (list_ascii_of_string s))
  | _ => []
  end.

(** [{ ...target, ...source }] *)
Definition spread_into (target : list (string * value)) (source : value)
    : list (string * value) :=
  fold_left (fun acc kv => set_prop (fst kv) (snd kv) acc) (own_props source) target.

(** ** Conversion to a string

    What a template literal does to the value it interpolates.  The values
    are those of a parsed JSON text, so an object is a plain object whose
    own properties are data, never functions. *)

(** [Number.MAX_SAFE_INTEGER]: up to it every integer is a number of
    JavaScript and is printed by its decimal digits. *)
Definition MAX_SAFE_INTEGER : Z := 9007199254740991.

Section Printing.

(** The text JavaScript prints for the number nearest to an integer beyond
    [MAX_SAFE_INTEGER]: other digits than those of the integer, or a form
    with an exponent.  It is taken as it comes. *)
Variable double_text : Z -> string.

Definition Number_toString (n : Z) : string :=
  if (Z.abs n <=? MAX_SAFE_INTEGER)%Z then toString n else double_text n.

(** [Object.prototype.hasOwnProperty.call(props, name)] *)
Definition has_own (name : string) (props : list (string * value)) : bool :=
  existsb (fun kv => String.eqb (fst kv) name) props.

(** The texts of the elements of an array, up to the first that throws. *)
Fixpoint sequence (texts : list (exn + string)) : exn + list string :=
  match texts with
  | [] => inr []
  | inl e :: _ => inl e
  | inr text :: rest =>
      match sequence rest with
      | inl e => inl e
      | inr others => inr (text :: others)
      end
  end.

(** The conversion itself.  An array is joined with commas, [null] and
    [undefined] among its elements giving the empty text.  A plain object
    is converted through its [toString] and then its [valueOf]: without an
    own [toString] the inherited one answers "[object Object]"; with an own
    [toString], which is data and cannot be called, neither an own
    [valueOf] (data too) nor the inherited one (it returns the object)
    gives a primitive, and the conversion throws. *)
Fixpoint ToString (v : value) : exn + string :=
  match v with
  | VUndefined => inr "undefined"
  | VNull => inr "null"
  | VBool true => inr "true"
  | VBool false => inr "false"
  | VNum n => inr (Number_toString n)
  | VStr s => inr s
  | VArr items =>
      match sequence (map (fun x => if nullish x then inr EmptyString else ToString x)
                          items) with
      | inl e => inl e
      | inr texts => inr (join "," texts)
      end
  | VObj props =>
      if has_own "toString" props
      then inl (TypeError "Cannot convert object to primitive value")
      else inr "[object Object]"
  end.

End Printing.

(** ** The local storage

    The item [dashboard-settings] is a JSON text, represented by the value
    it denotes, or a text that is not JSON.  [JSON.stringify] of the settings
    is the JSON text that denotes them. *)
Inductive Item : Type :=
| JsonItem (v : value)
| RawItem (s : string).

Definition item_truthy (i : Item) : bool :=
  match i with
  | JsonItem _ => true
  | RawItem s => truthy_string s
  end.

Definition JSON_parse (i : Item) : exn + value :=
  match i with
  | JsonItem v => inr v
  | RawItem _ => inl (SyntaxError "Unexpected token")
  end.

Definition JSON_stringify (v : value) : Item := JsonItem v.

Definition exn_message (e : exn) : string :=
  match e with
  | TypeError msg | SyntaxError msg | Error msg => msg
  end.

Inductive TestStatus : Type := idle | testing | success | error.

Record Page : Type := mkPage {
  settings : list (string * value);
  isSaving : bool;
  saveMessage : option string;
  testStatus : TestStatus;
  testMessage : string
}.

Record World : Type := mkWorld {
  page : Page;
  storage : option Item
}.

Definition setSettings (f : list (string * value) -> list (string * value))
    (p : Page) : Page :=
  {| settings := f (settings p); isSaving := isSaving p;
     saveMessage := saveMessage p; testStatus := testStatus p;
     testMessage := testMessage p |}.

Definition setSaveMessage (m : option string) (p : Page) : Page :=
  {| settings := settings p; isSaving := isSaving p; saveMessage := m;
     testStatus := testStatus p; testMessage := testMessage p |}.

Definition setIsSaving (b : bool) (p : Page) : Page :=
  {| settings := settings p; isSaving := b; saveMessage := saveMessage p;
     testStatus := testStatus p; testMessage := testMessage p |}.

Definition setTest (st : TestStatus) (m : string) (p : Page) : Page :=
  {| settings := settings p; isSaving := isSaving p; saveMessage := saveMessage p;
     testStatus := st; testMessage := m |}.

Section WithEnvironment.

(** [process.env.NEXT_PUBLIC_API_BASE_URL] *)
Variable env : option string.

Definition DEFAULT_SETTINGS : list (string * value) :=
  [ ("theme", VStr "system"); ("language", VStr "en");
    ("chatSuggestions", VBool true); ("autoReports", VBool false);
    ("apiKey", VStr "");
    ("baseUrl",
     VStr match env with
          | Some base => if truthy_string base then base else "http://localhost:8000"
          | None => "http://localhost:8000"
          end) ].

Definition initial_page : Page :=
  {| settings := DEFAULT_SETTINGS; isSaving := false; saveMessage := None;
     testStatus := idle; testMessage := "" |}.

(** The effect run at mount. *)
Definition mount (w : World) : World :=
  match storage w with
  | None => w
  | Some stored =>
      if item_truthy stored then
        match JSON_parse stored with
        | inr parsed =>
            {| page := setSettings (fun _ => spread_into DEFAULT_SETTINGS parsed) (page w);
               storage := storage w |}
        | inl _ =>
            {| page := setSettings (fun _ => DEFAULT_SETTINGS) (page w);
               storage := storage w |}
        end
      else w
  end.

(** [setSettings((prev) => ({ ...prev, [key]: value }))] *)
Definition handleChange (key : string) (v : value) (w : World) : World :=
  {| page := setSettings (set_prop key v) (page w); storage := storage w |}.

(** [handleSave]; [accepted] tells whether [localStorage.setItem] takes the
    write or throws. *)
Definition handleSave (accepted : bool) (w : World) : World :=
  let p := setSaveMessage None (setIsSaving true (page w)) in
  if accepted then
    {| page := setIsSaving false (setSaveMessage (Some "Settings saved locally.") p);
       storage := Some (JSON_stringify (VObj (settings (page w)))) |}
  else
    {| page := setIsSaving false (setSaveMessage (Some "Failed to save settings.") p);
       storage := storage w |}.

Definition handleReset (w : World) : World :=
  {| page := setSaveMessage (Some "Settings reset to defaults.")
               (setSettings (fun _ => DEFAULT_SETTINGS) (page w));
     storage := None |}.

(** ** [testConnection] *)

Definition setTestStatus (st : TestStatus) (p : Page) : Page :=
  setTest st (testMessage p) p.

Definition setTestMessage (m : string) (p : Page) : Page :=
  setTest (testStatus p) m p.

Section TestConnection.

Variable double_text : Z -> string.

(** [`${settings.baseUrl}/health`], the address [testConnection] fetches. *)
Definition health_url (p : Page) : exn + string :=
  match ToString double_text (lookup_prop "baseUrl" (settings p)) with
  | inl e => inl e
  | inr base => inr (base +:+ "/health")
  end.

(** The [try] block; [r] is what comes back from [fetch].  The message of
    a rejected fetch is the browser's. *)
Definition testConnection_try (r : FetchResult) : M Page unit :=
  p <- read ;;
  _ <- lift (health_url p) ;;
  match r with
  | Rejected => throw (TypeError "Failed to fetch")
  | Responded http_status http_body =>
      if negb (ok http_status) then throw (Error ("HTTP " +:+ toString http_status))
      else
        match http_body with
        | None => throw (SyntaxError "Unexpected token")
        | Some data =>
            _ <- modify (setTestStatus success) ;;
            st <- lift (get data "status") ;;
            text <- lift (ToString double_text (or_else st (VStr "OK"))) ;;
            modify (setTestMessage ("Connected: " +:+ text))
        end
  end.

(** [error instanceof Error ? error.message : "Connection failed"]: all
    that is thrown in the block is an [Error]. *)
Definition testConnection (r : FetchResult) (p : Page) : Page * (exn + unit) :=
  (_ <- modify (setTestStatus testing) ;;
   _ <- modify (setTestMessage "Testing connection...") ;;
   try_catch (testConnection_try r)
     (fun e =>
        _ <- modify (setTestStatus error) ;;
        modify (setTestMessage (exn_message e)))) p.

End TestConnection.

(** Settings that have every key of the defaults, each key once. *)
Definition complete (props : list (string * value)) : Prop :=
  NoDup (map fst props)
  /\ forall k, In k (map fst DEFAULT_SETTINGS) -> In k (map fst props).

End WithEnvironment.

End Settings.

(* ===================================================================== *)
(** * The upload page *)
(* ===================================================================== *)

Module Upload.
Import JS.

(** The three values of [status]: "processing", "success", "error". *)
Inductive Status : Type := status_processing | status_success | status_error.

(** [interface UploadedFile]; [rows] and [tableName] take what the upload
    answered, as it came. *)
Record UploadedFile : Type := mkUploadedFile {
  id : string;
  name : string;
  size : string;
  rows : value;
  tableName : value;
  status : Status;
  error : option string
}.

Record File : Type := mkFile {
  file_name : string;
  file_size : Z
}.

(** [v.name] of a value that is neither [null] nor [undefined]. *)
Definition field (v : value) (name0 : string) : value :=
  match get v name0 with
  | inr x => x
  | inl _ => VUndefined
  end.

Section HandleFiles.

(** [formatBytes] computes with floating-point logarithms and powers beyond
    its first line; that part is taken as it comes. *)
Variable formatBytes_float : Z -> string.

Definition formatBytes (bytes : Z) : string :=
  if (bytes =? 0)%Z then "0 B" else formatBytes_float bytes.

(** [handleFiles] up to [await upload(file)]: the list of uploads as the
    handler leaves it, and the identifier and the file of the upload it
    started, if any. *)
Definition handleFiles_begin (fileList : option (list File)) (now : Z)
    (uploads : list UploadedFile) : list UploadedFile * option (string * File) :=
  match fileList with
  | None | Some [] => (uploads, None)
  | Some (file :: _) =>
      let uploadId := toString now +:+ "-" +:+ file_name file in
      ({| id := uploadId; name := file_name file; size := formatBytes (file_size file);
          rows := VNum 0; tableName := VStr "Pending"; status := status_processing;
          error := None |} :: uploads,
       Some (uploadId, file))
  end.

(** [handleFiles] from the answer of [upload] on; [error0] is the [error]
    of the hook as the handler holds it. *)
Definition handleFiles_resume (uploadId : string) (response : value)
    (error0 : option string) (uploads : list UploadedFile) : list UploadedFile :=
  map (fun entry =>
         if String.eqb (id entry) uploadId then
           if truthy response then
             {| id := id entry; name := name entry; size := size entry;
                rows := field response "rowsUploaded";
                tableName := field response "tableName";
                status := status_success; error := error entry |}
           else
             {| id := id entry; name := name entry; size := size entry;
                rows := rows entry; tableName := tableName entry;
                status := status_error;
                error := Some match error0 with
                              | Some e => if truthy_string e then e else "Upload failed"
                              | None => "Upload failed"
                              end |}
         else entry)
      uploads.

End HandleFiles.

End Upload.

(* ===================================================================== *)
(** * app/explorer/page.tsx: loading the selected table *)
(* ===================================================================== *)

Module Explorer.
Import JS Eff Fetch.

(** The [useState] cells the second effect and the export buttons use.
    [error] is a message or [null]. *)
Record Page : Type := mkPage {
  selectedTable : string;
  tableData : value;
  loading : bool;
  error : option string
}.

(** The effect on [selectedTable], up to its [fetch]: the page as the effect
    leaves it and the address it fetches, if any. *)
Definition load_table_begin (p : Page) : Page * option string :=
  if negb (truthy_string (selectedTable p)) then (p, None)
  else
    ({| selectedTable := selectedTable p; tableData := tableData p;
        loading := true; error := error p |},
     Some ("/api/tables/" +:+ selectedTable p)).

(** The chain [.then(res => res.json()).then(data => ...).catch(err => ...)]
    on what the fetch gives.  The status of the answer is not looked at. *)
Definition load_table_resume (r : FetchResult) (p : Page) : Page :=
  match r with
  | Responded _ (Some data) =>
      {| selectedTable := selectedTable p; tableData := data;
         loading := false; error := error p |}
  | Responded _ None =>
      {| selectedTable := selectedTable p; tableData := tableData p;
         loading := false; error := Some "Unexpected token" |}
  | Rejected =>
      {| selectedTable := selectedTable p; tableData := tableData p;
         loading := false; error := Some "Failed to fetch" |}
  end.

(** What the browser receives when the proxy route has answered: the status
    and the JSON body of the [NextResponse]. *)
Definition through_proxy (backend : FetchResult) : FetchResult :=
  match snd (TableRoute.GET backend []) with
  | inr answer => Responded (TableRoute.status answer) (Some (TableRoute.body answer))
  | inl _ => Rejected
  end.

(** [!tableData?.sampleData]: the guard of the two export handlers and the
    [disabled] of their buttons. *)
Definition export_disabled (p : Page) : bool :=
  match get_opt (tableData p) "sampleData" with
  | inr sampleData => negb (truthy sampleData)
  | inl _ => true
  end.

(** The page shows its error card: [if (error)]. *)
Definition shows_error (p : Page) : bool :=
  match error p with
  | Some message => truthy_string message
  | None => false
  end.

End Explorer.

(* ===================================================================== *)
(** * Concrete sessions, payloads and answers used in the examples *)
(* ===================================================================== *)

Module Examples.
Import JS Eff Fetch Provider Chat.

Definition message7 : ChatMessage :=
  {| id := "7"; role := user; content := VStr "Show sales by country";
     timestamp := 7; visualization := VUndefined |}.

Definition message8 : ChatMessage :=
  {| id := "8"; role := ai; content := VStr "Here they are";
     timestamp := 8; visualization := VUndefined |}.

Definition empty_chat : ChatState := {| messages := []; conversationId := VNull |}.

Definition busy_chat : ChatState :=
  {| messages := [message7; message8]; conversationId := VStr "c1" |}.

Definition content_patch : Patch :=
  {| patch_id := None; patch_role := None; patch_content := Some (VStr "edited");
     patch_timestamp := None; patch_visualization := None |}.

(** [{ content: "edited", visualization: { type: "bar" } }] *)
Definition chart_patch : Patch :=
  {| patch_id := None; patch_role := None; patch_content := Some (VStr "edited");
     patch_timestamp := None;
     patch_visualization := Some (VObj [("type", VStr "bar")]) |}.

Definition session (c : ChatState) (typed : string) : Session :=
  {| chat := c; input := typed; isLoading := false; console := [] |}.

Definition sales_rows : list value :=
  [ VObj [("country", VStr "US"); ("sales", VNum 100)];
    VObj [("country", VStr "FR"); ("sales", VNum 80)] ].

Definition payload (type : string) (data : value) : value :=
  VObj [("type", VStr type); ("data", data)].

(** Rows with a column whose name is the empty string. *)
Definition row_a_blank : value := VObj [("a", VNum 1); ("", VNum 2)].

Definition row_blank_a : value := VObj [("", VNum 1); ("a", VNum 2)].

Definition turn (response : string) (cid : value) : value :=
  VObj [("response", VStr response); ("conversationId", cid)].

(** A [generateReport] that posts the request at once and moves the hook to
    [generating]. *)
Definition eager_generateReport (req : Reports.ReportRequest) : M Reports.World unit :=
  modify
    (fun w =>
       {| Reports.hook :=
            {| Reports.generating := true; Reports.status := None;
               Reports.error := None |};
          Reports.network :=
            Reports.network w ++ ["POST /api/report/generate " +:+ Reports.query req] |}).

Definition idle_world : Reports.World :=
  {| Reports.hook :=
       {| Reports.generating := false; Reports.status := None;
          Reports.error := None |};
     Reports.network := [] |}.

End Examples.

(* ===================================================================== *)
(** * The chat session state *)
(* ===================================================================== *)

Section ProviderFacts.
Import JS Provider Examples.

Lemma addMessages_messages (ms : list ChatMessage) (s : ChatState) :
  messages (addMessages ms s) = messages s ++ ms.
Proof.
  revert s. induction ms as [|m ms IH]; intros s; simpl.
  - symmetry. apply app_nil_r.
  - unfold addMessages in *. simpl. rewrite IH. simpl.
    rewrite <- app_assoc. reflexivity.
Qed.

Lemma addMessages_conversationId (ms : list ChatMessage) (s : ChatState) :
  conversationId (addMessages ms s) = conversationId s.
Proof.
  revert s. induction ms as [|m ms IH]; intros s; [reflexivity|].
  unfold addMessages in *. simpl. rewrite IH. reflexivity.
Qed.

Lemma addMessages_ids (ms : list ChatMessage) (s : ChatState) :
  ids (addMessages ms s) = ids s ++ map id ms.
Proof. unfold ids. rewrite addMessages_messages. apply map_app. Qed.

(** [addMessage] alone: the new message is the last one, the others keep
    their places. *)
Lemma addMessage_lookup (m : ChatMessage) (s : ChatState) (i : nat) :
  i < length (messages s) ->
  messages (addMessage m s) !! i = messages s !! i.
Proof. intros Hi. simpl. apply lookup_app_l. exact Hi. Qed.

Lemma addMessage_last (m : ChatMessage) (s : ChatState) :
  messages (addMessage m s) !! length (messages s) = Some m.
Proof. simpl. apply list_lookup_middle. reflexivity. Qed.

(** C2, as the code has it.  A sequence of [addMessage] calls leaves the
    log it started from in place and puts the appended messages after it, in
    call order; nothing is dropped, reordered or deduplicated.  Hence every
    identifier occurs at most once in the resulting log exactly when the
    identifiers of the starting log followed by those of the appended
    messages are pairwise distinct: [addMessage] itself never checks an
    identifier. *)
Theorem addMessages_order_and_ids (ms : list ChatMessage) (s : ChatState) :
  messages (addMessages ms s) = messages s ++ ms
  /\ conversationId (addMessages ms s) = conversationId s
  /\ (NoDup (ids (addMessages ms s)) <-> NoDup (ids s ++ map id ms)).
Proof.
  split; [apply addMessages_messages|].
  split; [apply addMessages_conversationId|].
  rewrite addMessages_ids. reflexivity.
Qed.

Lemma addMessages_order_and_ids_witness :
  messages (addMessages [message7; message8] empty_chat) = [message7; message8]
  /\ NoDup (ids (addMessages [message7; message8] empty_chat)).
Proof.
  destruct (addMessages_order_and_ids [message7; message8] empty_chat)
    as (Hlog & _ & Hids).
  split; [exact Hlog|].
  apply Hids. simpl.
  repeat (constructor; [rewrite ?elem_of_cons, elem_of_nil; intuition discriminate|]).
  constructor.
Defined.

(** C2 as stated fails: appending a message twice is a sequence of
    [addMessage] calls after which its identifier occurs twice. *)
Lemma addMessages_duplicate_id :
  messages (addMessages [message7; message7] empty_chat) = [message7; message7]
  /\ ids (addMessages [message7; message7] empty_chat) = ["7"; "7"]
  /\ ~ NoDup (ids (addMessages [message7; message7] empty_chat)).
Proof.
  split; [reflexivity|]. split; [reflexivity|].
  intros H. simpl in H. apply NoDup_cons in H as [Hnotin _].
  apply Hnotin. left.
Qed.

(** C4.  [clearMessages] yields the empty log and the unset (null)
    conversation identifier, whatever the log and the identifier were. *)
Theorem clearMessages_resets (s : ChatState) :
  messages (clearMessages s) = [] /\ conversationId (clearMessages s) = VNull.
Proof. split; reflexivity. Qed.

Lemma clearMessages_constant (s : ChatState) : clearMessages s = empty_chat.
Proof. reflexivity. Qed.

(** ** [updateMessage] *)

Lemma spread_fields (msg : ChatMessage) (patch : Patch) :
  id (spread msg patch) = default (id msg) (patch_id patch)
  /\ role (spread msg patch) = default (role msg) (patch_role patch)
  /\ content (spread msg patch) = default (content msg) (patch_content patch)
  /\ timestamp (spread msg patch) = default (timestamp msg) (patch_timestamp patch)
  /\ visualization (spread msg patch)
     = default (visualization msg) (patch_visualization patch).
Proof. repeat split. Qed.

Lemma map_lookup_Some {A B : Type} (f : A -> B) (l : list A) (i : nat) (x : A) :
  l !! i = Some x -> map f l !! i = Some (f x).
Proof.
  revert i. induction l as [|a l IH]; intros [|i] H; simpl in *;
    try discriminate.
  - injection H as ->. reflexivity.
  - apply IH. exact H.
Qed.

Lemma map_unchanged {A : Type} (f : A -> A) (l : list A) :
  (forall x, x ∈ l -> f x = x) -> map f l = l.
Proof.
  induction l as [|a l IH]; intros H; simpl; [reflexivity|].
  rewrite H by left. rewrite IH; [reflexivity|].
  intros x Hx. apply H. right. exact Hx.
Qed.

End ProviderFacts.

Section UpdateMessage.
Import JS Provider Examples.

Lemma updateMessage_messages (id0 : string) (patch : Patch) (s : ChatState) :
  messages (updateMessage id0 patch s)
  = map (fun msg => if String.eqb (id msg) id0 then spread msg patch else msg)
        (messages s).
Proof. reflexivity. Qed.

(** C9.  [updateMessage id0 patch] keeps the length of the log and the
    place of every message.  The message at a position whose identifier is
    [id0] is replaced by its merge with the patch, [{ ...msg, ...patch }]:
    field by field, the merged message has the value the patch gives for
    the field when the patch has the field, and the value of the original
    message when it has not.  A message with another identifier stays as it
    is, in all its fields.  When no message has the identifier the state
    does not change.  The conversation identifier is never touched. *)
Theorem updateMessage_frame (id0 : string) (patch : Patch) (s : ChatState) :
  length (messages (updateMessage id0 patch s)) = length (messages s)
  /\ (forall i msg, messages s !! i = Some msg -> id msg = id0 ->
        exists merged,
          messages (updateMessage id0 patch s) !! i = Some merged
          /\ id merged
             = match patch_id patch with Some v => v | None => id msg end
          /\ role merged
             = match patch_role patch with Some v => v | None => role msg end
          /\ content merged
             = match patch_content patch with Some v => v | None => content msg end
          /\ timestamp merged
             = match patch_timestamp patch with
               | Some v => v
               | None => timestamp msg
               end
          /\ visualization merged
             = match patch_visualization patch with
               | Some v => v
               | None => visualization msg
               end)
  /\ (forall i msg, messages s !! i = Some msg -> id msg <> id0 ->
        messages (updateMessage id0 patch s) !! i = Some msg)
  /\ ((forall msg, msg ∈ messages s -> id msg <> id0) ->
        updateMessage id0 patch s = s)
  /\ conversationId (updateMessage id0 patch s) = conversationId s.
Proof.
  rewrite updateMessage_messages.
  split; [apply length_map|].
  split.
  { intros i msg Hi Hid.
    exists (spread msg patch). split.
    - rewrite (map_lookup_Some _ _ _ _ Hi).
      apply String.eqb_eq in Hid. rewrite Hid. reflexivity.
    - destruct patch as [[?|] [?|] [?|] [?|] [?|]]; repeat split. }
  split.
  { intros i msg Hi Hid.
    rewrite (map_lookup_Some _ _ _ _ Hi).
    apply String.eqb_neq in Hid. rewrite Hid. reflexivity. }
  split; [|reflexivity].
  intros Hnone. destruct s as [log cid]. unfold updateMessage, setMessages. simpl.
  f_equal. apply map_unchanged. intros msg Hmsg.
  specialize (Hnone msg Hmsg). apply String.eqb_neq in Hnone.
  simpl in *. rewrite Hnone. reflexivity.
Qed.

(** On the log of messages "7" and "8": a patch that carries a content and
    a visualization for "8" gives, at the place of "8", the message with
    that content and that visualization and with the identifier, role and
    time stamp it had; the message "7" is not touched; a patch for "9",
    which is not there, changes nothing. *)
Lemma updateMessage_frame_witness :
  messages (updateMessage "8" chart_patch busy_chat) !! 1
    = Some {| id := "8"; role := ai; content := VStr "edited"; timestamp := 8;
              visualization := VObj [("type", VStr "bar")] |}
  /\ messages (updateMessage "8" chart_patch busy_chat) !! 0 = Some message7
  /\ length (messages (updateMessage "8" chart_patch busy_chat)) = 2
  /\ updateMessage "9" chart_patch busy_chat = busy_chat.
Proof.
  destruct (updateMessage_frame "8" chart_patch busy_chat)
    as (Hlen & Hhit & Hmiss & _ & _).
  destruct (updateMessage_frame "9" chart_patch busy_chat)
    as (_ & _ & _ & Hnone & _).
  split.
  { destruct (Hhit 1 message8 eq_refl eq_refl)
      as (merged & -> & Hid & Hrole & Hcontent & Hstamp & Hvis).
    destruct merged as [i r c t v]. simpl in Hid, Hrole, Hcontent, Hstamp, Hvis.
    rewrite Hid, Hrole, Hcontent, Hstamp, Hvis. reflexivity. }
  split; [apply Hmiss; [reflexivity|discriminate]|].
  split; [rewrite Hlen; reflexivity|].
  apply Hnone. intros msg Hmsg. simpl in Hmsg.
  rewrite !elem_of_cons, elem_of_nil in Hmsg.
  destruct Hmsg as [->|[->|[]]]; discriminate.
Defined.

(** A patch may carry an [id]: the merged message then answers to the new
    identifier. *)
Example updateMessage_can_rename :
  ids (updateMessage "8"
         {| patch_id := Some "7"; patch_role := None; patch_content := None;
            patch_timestamp := None; patch_visualization := None |}
         busy_chat) = ["7"; "7"].
Proof. reflexivity. Qed.

End UpdateMessage.

(* ===================================================================== *)
(** * The visualization preview *)
(* ===================================================================== *)

Section PreviewFacts.
Import JS Eff Fetch Provider Chat Examples.
Local Open Scope eff_scope.

Lemma returns_ret {S A : Type} (a : A) : returns (S := S) (ret a).
Proof. intros s. exists s, a. reflexivity. Qed.

Lemma returns_modify {S : Type} (f : S -> S) : returns (modify f).
Proof. intros s. exists (f s), tt. reflexivity. Qed.

Lemma returns_lift {S A : Type} (a : A) : returns (S := S) (lift (inr a)).
Proof. intros s. exists s, a. reflexivity. Qed.

Lemma returns_bind {S A B : Type} (m : M S A) (k : A -> M S B) :
  returns m -> (forall a, returns (k a)) -> returns (x <- m ;; k x).
Proof.
  intros Hm Hk s. destruct (Hm s) as (s1 & a & E).
  destruct (Hk a s1) as (s2 & b & E2).
  exists s2, b. unfold bind. rewrite E. exact E2.
Qed.

Lemma returns_orM {S : Type} (a b : M S value) :
  returns a -> returns b -> returns (orM a b).
Proof.
  intros Ha Hb. unfold orM. apply returns_bind; [exact Ha|].
  intros x. destruct (truthy x); [apply returns_ret|exact Hb].
Qed.

Lemma get_defined (v : value) (name : string) :
  nullish v = false -> exists x, get v name = inr x.
Proof. destruct v; simpl; intros H; try discriminate; eauto. Qed.

Lemma get_opt_defined (v : value) (name : string) :
  exists x, get_opt v name = inr x.
Proof.
  unfold get_opt. destruct (nullish v) eqn:E; [eauto|].
  apply get_defined. exact E.
Qed.

Lemma Object_keys_defined (v : value) :
  nullish v = false -> exists keys, Object_keys v = inr keys.
Proof. destruct v; simpl; intros H; try discriminate; eauto. Qed.

Lemma coalesce_not_nullish (a b : value) :
  nullish b = false -> nullish (coalesce a b) = false.
Proof. unfold coalesce. destruct (nullish a) eqn:E; auto. Qed.

Lemma truthy_not_nullish (v : value) : truthy v = true -> nullish v = false.
Proof. destruct v; simpl; intros H; try discriminate; reflexivity. Qed.

Lemma returns_config_field (visualization : value) (name : string) :
  nullish visualization = false -> returns (config_field visualization name).
Proof.
  intros Hv. unfold config_field.
  destruct (get_defined visualization "config" Hv) as (c & Ec). rewrite Ec.
  apply returns_bind; [apply returns_lift|].
  intros c'. destruct (get_opt_defined c' name) as (x & Ex). rewrite Ex.
  apply returns_lift.
Qed.

Lemma returns_resolveFields (visualization : value) (data : list value) :
  nullish visualization = false -> returns (resolveFields visualization data).
Proof.
  intros Hv. unfold resolveFields, objectKeys, findKey, tell.
  destruct (Object_keys_defined (coalesce (nth 0 data VUndefined) (VObj [])))
    as (keys & Ek).
  { apply coalesce_not_nullish. reflexivity. }
  rewrite Ek.
  repeat first
    [ apply returns_ret | apply returns_modify | apply returns_lift
    | apply returns_config_field; exact Hv
    | apply returns_orM
    | apply returns_bind; [|intros ?] ].
Qed.

(** The body of the component returns an element on a payload that is
    neither [null] nor [undefined], whatever else the payload is. *)
Lemma returns_VisualizationPreview (visualization : value) :
  nullish visualization = false -> returns (VisualizationPreview visualization).
Proof.
  intros Hv. unfold VisualizationPreview.
  destruct (get_defined visualization "data" Hv) as (d & Ed). rewrite Ed.
  apply returns_bind; [apply returns_lift|]. intros d'.
  destruct (_ =? 0)%nat; [apply returns_ret|].
  apply returns_bind; [apply returns_resolveFields; exact Hv|].
  intros fields. destruct (_ || _); [apply returns_ret|].
  destruct (get_defined visualization "type" Hv) as (t & Et). rewrite Et.
  apply returns_bind; [apply returns_lift|]. intros ?. apply returns_ret.
Qed.

(** The preview expression of a message always evaluates to an outcome:
    the guard at the call site keeps [null] and [undefined] away from the
    component, whose body returns an element for every other value. *)
Lemma returns_renderVisualization (msg : ChatMessage) :
  returns (renderVisualization msg).
Proof.
  unfold renderVisualization.
  destruct (truthy (visualization msg)) eqn:Ht; simpl; [|apply returns_ret].
  destruct (Role_eqb _ _); [|apply returns_ret].
  apply returns_bind; [|intros ?; apply returns_ret].
  apply returns_VisualizationPreview, truthy_not_nullish, Ht.
Qed.

Lemma VisualizationPreview_no_rows (visualization d : value) (log : Trace) :
  get visualization "data" = inr d ->
  match d with VArr (_ :: _) => False | _ => True end ->
  VisualizationPreview visualization log = (log, inr Unavailable).
Proof.
  intros Hget Hd. unfold VisualizationPreview, bind, lift. rewrite Hget. simpl.
  destruct d as [| | | | |[|x items]|]; try reflexivity. contradiction.
Qed.

(** C5.  A payload whose [data] is the empty array renders the
    "Visualization data unavailable." placeholder: the component returns it
    (nothing is thrown) and has called neither [Object.keys] nor [find]. *)
Theorem empty_data_unavailable (visualization : value) :
  get visualization "data" = inr (VArr []) ->
  exec (VisualizationPreview visualization) = ([], inr Unavailable).
Proof.
  intros Hget. unfold exec.
  apply (VisualizationPreview_no_rows visualization (VArr [])); [exact Hget|exact I].
Qed.

Lemma empty_data_unavailable_witness :
  exec (VisualizationPreview (payload "bar" (VArr []))) = ([], inr Unavailable).
Proof. apply empty_data_unavailable. reflexivity. Defined.

(** C10.  A payload whose [data] is anything but an array, a missing
    [data] included, is treated as having no rows: the component returns the
    "unavailable" placeholder, throws nothing and resolves no key.  So does
    the message that carries the payload, wherever it shows a preview: that
    is, when the payload is truthy and the message is the assistant's. *)
Theorem non_array_data_unavailable (visualization0 d : value) :
  get visualization0 "data" = inr d ->
  isArray d = false ->
  exec (VisualizationPreview visualization0) = ([], inr Unavailable)
  /\ (forall msg : ChatMessage,
        visualization msg = visualization0 ->
        exec (renderVisualization msg)
        = ([], inr (if truthy visualization0 && Role_eqb (role msg) ai
                    then Some Unavailable else None))).
Proof.
  intros Hget Hd.
  assert (E : forall log, VisualizationPreview visualization0 log
                          = (log, inr Unavailable)).
  { intros log. apply (VisualizationPreview_no_rows _ d); [exact Hget|].
    destruct d; try exact I. discriminate. }
  split; [apply E|].
  intros msg <-. unfold exec, renderVisualization.
  destruct (truthy (visualization msg) && Role_eqb (role msg) ai); [|reflexivity].
  unfold bind. rewrite E. reflexivity.
Qed.

Lemma non_array_data_unavailable_witness :
  exec (VisualizationPreview (payload "pie" (VStr "a,b,c"))) = ([], inr Unavailable)
  /\ exec (renderVisualization
             {| id := "9"; role := ai; content := VStr "chart";
                timestamp := 9; visualization := payload "pie" (VStr "a,b,c") |})
     = ([], inr (Some Unavailable)).
Proof.
  destruct (non_array_data_unavailable (payload "pie" (VStr "a,b,c")) (VStr "a,b,c"))
    as (Hcomponent & Hmessage); [reflexivity|reflexivity|].
  split; [exact Hcomponent|].
  apply (Hmessage
           {| id := "9"; role := ai; content := VStr "chart";
              timestamp := 9; visualization := payload "pie" (VStr "a,b,c") |}).
  reflexivity.
Defined.

(** The same for payloads that are not even objects. *)
Example non_object_payload_unavailable :
  exec (VisualizationPreview (VStr "bar")) = ([], inr Unavailable)
  /\ exec (VisualizationPreview (VNum 3)) = ([], inr Unavailable)
  /\ exec (VisualizationPreview (VArr sales_rows)) = ([], inr Unavailable).
Proof. repeat split. Qed.

End PreviewFacts.

Section FieldResolution.
Import JS Eff Fetch Provider Chat Examples.
Local Open Scope eff_scope.

Lemma config_field_silent (visualization : value) (name : string) (log : Trace) :
  no_field_mapping visualization = true ->
  In name ["labelKey"; "xKey"; "valueKey"; "yKey"] ->
  exists x, config_field visualization name log = (log, inr x) /\ truthy x = false.
Proof.
  unfold no_field_mapping, config_field, bind, lift.
  destruct (get visualization "config") as [e|config]; [discriminate|].
  intros Hall Hname. rewrite forallb_forall in Hall.
  specialize (Hall name Hname).
  destruct (get_opt config name) as [e|x]; [discriminate|].
  exists x. split; [reflexivity|]. apply negb_true_iff, Hall.
Qed.

Lemma orM_falsy (a b : M Trace value) (log : Trace) (x : value) :
  a log = (log, inr x) -> truthy x = false -> orM a b log = b log.
Proof. intros Ha Hx. unfold orM, bind. rewrite Ha, Hx. reflexivity. Qed.

(** Without a field mapping the two fields come from the keys of the first
    row alone: [labelKey] is [keys[0]], [valueKey] is
    [keys.find(key => key !== labelKey) || keys[0]]. *)
Lemma resolveFields_default (visualization : value) (row : list (string * value))
    (rest : list value) (log : Trace) :
  no_field_mapping visualization = true ->
  let keys := map fst row in
  let labelKey := first_key keys in
  resolveFields visualization (VObj row :: rest) log
  = (log ++ [CallObjectKeys (VObj row)] ++ [CallFind keys],
     inr (labelKey,
          or_else (find_key (fun key => negb (strict_eq_string key labelKey)) keys)
                  labelKey)).
Proof.
  intros Hc keys labelKey.
  assert (Hsilent : forall name b log',
             In name ["labelKey"; "xKey"; "valueKey"; "yKey"] ->
             orM (config_field visualization name) b log' = b log').
  { intros name b log' Hname.
    destruct (config_field_silent visualization name log' Hc Hname) as (x & E & Hx).
    apply (orM_falsy _ _ _ x E Hx). }
  unfold resolveFields, objectKeys, findKey, tell.
  unfold bind at 1. unfold bind at 1. unfold modify, lift. simpl coalesce.
  simpl Object_keys. cbv beta iota. fold keys.
  unfold bind at 1.
  rewrite Hsilent by (simpl; tauto). rewrite Hsilent by (simpl; tauto).
  unfold ret at 1. cbv beta iota. fold labelKey.
  unfold bind at 1.
  rewrite Hsilent by (simpl; tauto). rewrite Hsilent by (simpl; tauto).
  unfold orM, bind, modify, ret, or_else. cbv beta iota.
  rewrite <- app_assoc.
  destruct (truthy (find_key _ keys)); reflexivity.
Qed.

Lemma find_other_key (k : string) (ks : list string) :
  List.find (fun key => negb (strict_eq_string key (VStr k))) (k :: ks)
  = List.find (fun key => negb (String.eqb key k)) ks.
Proof. simpl. rewrite String.eqb_refl. reflexivity. Qed.

Lemma truthy_string_true (s : string) : s <> "" -> truthy_string s = true.
Proof. destruct s; [congruence|reflexivity]. Qed.

Lemma VisualizationPreview_default (props row : list (string * value))
    (rest : list value) :
  lookup_prop "data" props = VArr (VObj row :: rest) ->
  no_field_mapping (VObj props) = true ->
  let keys := map fst row in
  let labelKey := first_key keys in
  let valueKey :=
    or_else (find_key (fun key => negb (strict_eq_string key labelKey)) keys)
            labelKey in
  snd (exec (VisualizationPreview (VObj props)))
  = inr (if negb (truthy labelKey) || negb (truthy valueKey) then CannotDetermine
         else Preview (lookup_prop "type" props)
                (chart_of (lookup_prop "type" props) (VObj row :: rest)
                   labelKey valueKey)).
Proof.
  intros Hd Hc keys labelKey valueKey.
  unfold exec, VisualizationPreview. unfold bind at 1. unfold lift at 1.
  simpl get. cbv iota beta. rewrite Hd. cbv iota beta.
  change (length (VObj row :: rest) =? 0)%nat with false. cbv iota.
  unfold bind at 1. rewrite (resolveFields_default (VObj props) row rest [] Hc).
  cbv zeta. fold keys. fold labelKey. fold valueKey.
  unfold fst at 1 2, snd at 2 3.
  destruct (negb (truthy labelKey) || negb (truthy valueKey)); reflexivity.
Qed.

(** C3, as the code has it.  With no field mapping (no [config], or a
    [config] none of whose four keys is set), and a first row that is an
    object whose first key [k] is not the empty string, the category field
    is [k]; the value field is the first key different from [k] when there
    is one and it is not the empty string, and [k] itself otherwise (no
    other key, or an other key that is empty).  Both are handed to the
    chart.  When the first row has no key, or its first key is the empty
    string, the component renders "Cannot determine visualization fields."
    For the two rows of sales by country the fields are [country] and
    [sales]. *)
Theorem default_field_resolution :
  (forall (props row : list (string * value)) (rest : list value)
          (k : string) (ks : list string),
      lookup_prop "data" props = VArr (VObj row :: rest) ->
      no_field_mapping (VObj props) = true ->
      map fst row = k :: ks ->
      k <> "" ->
      let value_field :=
        match List.find (fun key => negb (String.eqb key k)) ks with
        | Some other => if truthy_string other then other else k
        | None => k
        end in
      let type := lookup_prop "type" props in
      snd (exec (resolveFields (VObj props) (VObj row :: rest)))
      = inr (VStr k, VStr value_field)
      /\ snd (exec (VisualizationPreview (VObj props)))
         = inr (Preview type
                  (chart_of type (VObj row :: rest) (VStr k) (VStr value_field))))
  /\ (forall (props row : list (string * value)) (rest : list value),
      lookup_prop "data" props = VArr (VObj row :: rest) ->
      no_field_mapping (VObj props) = true ->
      (map fst row = [] \/ exists ks, map fst row = "" :: ks) ->
      snd (exec (VisualizationPreview (VObj props))) = inr CannotDetermine)
  /\ snd (exec (resolveFields (payload "bar" (VArr sales_rows)) sales_rows))
     = inr (VStr "country", VStr "sales").
Proof.
  split; [|split; [|reflexivity]].
  - intros props row rest k ks Hd Hc Hk Hne value_field type.
    assert (Hv : or_else
                   (find_key (fun key => negb (strict_eq_string key (VStr k)))
                      (k :: ks)) (VStr k) = VStr value_field).
    { unfold find_key. rewrite find_other_key. unfold value_field, or_else.
      destruct (List.find _ ks) as [other|]; simpl.
      - destruct (truthy_string other); reflexivity.
      - reflexivity. }
    assert (Hvt : truthy_string value_field = true).
    { unfold value_field. destruct (List.find _ ks) as [other|].
      - destruct (truthy_string other) eqn:E; [exact E|].
        apply truthy_string_true, Hne.
      - apply truthy_string_true, Hne. }
    split.
    + unfold exec. rewrite (resolveFields_default (VObj props) row rest [] Hc).
      cbv zeta. rewrite Hk. simpl first_key. rewrite Hv. reflexivity.
    + rewrite (VisualizationPreview_default props row rest Hd Hc).
      cbv zeta. rewrite Hk. simpl first_key. rewrite Hv. simpl truthy.
      rewrite (truthy_string_true k Hne), Hvt. reflexivity.
  - intros props row rest Hd Hc Hkeys.
    rewrite (VisualizationPreview_default props row rest Hd Hc). cbv zeta.
    destruct Hkeys as [->|[ks ->]]; reflexivity.
Qed.

Lemma default_field_resolution_witness :
  snd (exec (VisualizationPreview (payload "bar" (VArr sales_rows))))
  = inr (Preview (VStr "bar")
           (Some (BarPreview sales_rows (VStr "country") (VStr "sales"))))
  /\ snd (exec (VisualizationPreview (payload "bar" (VArr [row_blank_a]))))
     = inr CannotDetermine.
Proof.
  destruct default_field_resolution as (Hsel & Hnone & _).
  split.
  - apply (Hsel [("type", VStr "bar"); ("data", VArr sales_rows)]
             [("country", VStr "US"); ("sales", VNum 100)]
             [VObj [("country", VStr "FR"); ("sales", VNum 80)]]
             "country" ["sales"]); try reflexivity. discriminate.
  - apply (Hnone [("type", VStr "bar"); ("data", VArr [row_blank_a])]
             [("", VNum 1); ("a", VNum 2)] []); try reflexivity.
    right. exists ["a"]. reflexivity.
Defined.

(** An empty [config] object, or one with another mapping than the four
    keys read, is no mapping either. *)
Example empty_config_is_no_mapping :
  snd (exec (VisualizationPreview
               (VObj [("type", VStr "line"); ("data", VArr sales_rows);
                      ("config", VObj [])])))
  = inr (Preview (VStr "line")
           (Some (LinePreview sales_rows (VStr "country") (VStr "sales")))).
Proof. reflexivity. Qed.

(** An explicit mapping wins over the keys of the row. *)
Example explicit_mapping_wins :
  snd (exec (resolveFields
               (VObj [("type", VStr "bar"); ("data", VArr sales_rows);
                      ("config", VObj [("xKey", VStr "sales");
                                       ("valueKey", VStr "country")])])
               sales_rows))
  = inr (VStr "sales", VStr "country").
Proof. reflexivity. Qed.

(** C3 as stated fails on a row with an empty key.  In [{a: 1, "": 2}] the
    first key is [a] and the first other key is the empty string, yet the
    value field is [a]; in [{"": 1, a: 2}] the first key is the empty string
    and no field is selected at all. *)
Lemma empty_key_not_selected :
  Object_keys row_a_blank = inr ["a"; ""]
  /\ snd (exec (resolveFields (payload "bar" (VArr [row_a_blank])) [row_a_blank]))
     = inr (VStr "a", VStr "a")
  /\ snd (exec (resolveFields (payload "bar" (VArr [row_a_blank])) [row_a_blank]))
     <> inr (VStr "a", VStr "")
  /\ snd (exec (VisualizationPreview (payload "bar" (VArr [row_a_blank]))))
     = inr (Preview (VStr "bar")
              (Some (BarPreview [row_a_blank] (VStr "a") (VStr "a"))))
  /\ Object_keys row_blank_a = inr [""; "a"]
  /\ snd (exec (VisualizationPreview (payload "bar" (VArr [row_blank_a]))))
     = inr CannotDetermine.
Proof. repeat split. discriminate. Qed.

End FieldResolution.

(* ===================================================================== *)
(** * Sending a chat message *)
(* ===================================================================== *)

Section SendFacts.
Import JS Eff Fetch Provider Chat Examples.
Local Open Scope eff_scope.

Lemma handleSendMessage_begin_sent (text : option string) (now stamp : Z)
    (w w1 : Session) (req : ChatRequest) :
  handleSendMessage_begin text now stamp w = (w1, Some req) ->
  truthy_string (request_message req) = true
  /\ request_message req = messageText_of text w
  /\ request_conversationId req = conversationId (chat w)
  /\ w1 = on_chat (addMessage (userMessage_of (request_message req) now stamp))
            (setIsLoading true (setInput "" w)).
Proof.
  unfold handleSendMessage_begin.
  destruct (truthy_string (messageText_of text w)) eqn:E; simpl; intros H;
    [|discriminate].
  injection H as <- <-. simpl. auto.
Qed.

Lemma handleSendMessage_begin_blank (text : option string) (now stamp : Z)
    (w : Session) :
  truthy_string (messageText_of text w) = false ->
  handleSendMessage_begin text now stamp w = (w, None).
Proof. intros E. unfold handleSendMessage_begin. rewrite E. reflexivity. Qed.

(** A failed request ends in the [catch] block: the error goes to the
    console, the apology to the log. *)
Lemma resume_failed (r : FetchResult) (now stamp : Z) (w : Session) :
  request_failed r = true ->
  exists e,
    handleSendMessage_resume r now stamp w
    = ({| chat := addMessage (errorMessage_of now stamp) (chat w);
          input := input w; isLoading := false;
          console := console w ++ [("Chat error:", e)] |}, inr tt).
Proof.
  destruct r as [|status body]; simpl; intros Hf.
  - eexists. reflexivity.
  - apply negb_true_iff in Hf.
    eexists. unfold handleSendMessage_resume, finally, try_catch,
      handleSendMessage_try, bind, await_data. rewrite Hf. simpl. reflexivity.
Qed.

(** A 2xx answer whose body is an object, an array or a primitive other than
    [null]: the [try] block runs to its end. *)
Lemma resume_answered (status : Z) (data cid : value) (now stamp : Z) (w : Session) :
  ok status = true ->
  get data "conversationId" = inr cid ->
  exists response viz,
    get data "response" = inr response
    /\ get data "visualization" = inr viz
    /\ handleSendMessage_resume (Responded status (Some data)) now stamp w
       = ({| chat :=
               addMessage
                 {| id := toString (now + 1); role := ai;
                    content := or_else response (VStr "No response from AI");
                    timestamp := stamp; visualization := viz |}
                 (if truthy cid then setConversationId cid (chat w) else chat w);
             input := input w; isLoading := false; console := console w |},
          inr tt).
Proof.
  intros Hok Hcid.
  assert (Hn : nullish data = false).
  { destruct data; try reflexivity; discriminate. }
  destruct (get_defined data "response" Hn) as (response & Hr).
  destruct (get_defined data "visualization" Hn) as (viz & Hv).
  exists response, viz. split; [exact Hr|]. split; [exact Hv|].
  unfold handleSendMessage_resume, finally, try_catch, handleSendMessage_try,
    bind, await_data, lift, modify, ret.
  rewrite Hok. cbn [negb]. cbv beta iota. rewrite Hcid.
  destruct (truthy cid); cbv beta iota; rewrite Hr, Hv; reflexivity.
Qed.

(** A 2xx answer that cannot be read: the body is not JSON, or it is
    [null]. *)
Lemma resume_unreadable (status : Z) (body : option value) (now stamp : Z)
    (w : Session) :
  ok status = true ->
  match body with
  | None => True
  | Some data => exists e, get data "conversationId" = inl e
  end ->
  exists e,
    handleSendMessage_resume (Responded status body) now stamp w
    = ({| chat := addMessage (errorMessage_of now stamp) (chat w);
          input := input w; isLoading := false;
          console := console w ++ [("Chat error:", e)] |}, inr tt).
Proof.
  intros Hok Hbody.
  unfold handleSendMessage_resume, finally, try_catch, handleSendMessage_try,
    bind, await_data, lift, ret, throw.
  rewrite Hok. cbn [negb]. cbv beta iota.
  destruct body as [data|].
  - destruct Hbody as (e & He). rewrite He. eexists. reflexivity.
  - eexists. reflexivity.
Qed.

(** No exception leaves the handler, and the loading flag is always
    cleared. *)
Lemma resume_total (r : FetchResult) (now stamp : Z) (w : Session) :
  snd (handleSendMessage_resume r now stamp w) = inr tt
  /\ isLoading (fst (handleSendMessage_resume r now stamp w)) = false
  /\ exists m,
       role m = ai
       /\ messages (chat (fst (handleSendMessage_resume r now stamp w)))
          = messages (chat w) ++ [m].
Proof.
  destruct (request_failed r) eqn:Hf.
  - destruct (resume_failed r now stamp w Hf) as (e & ->). simpl.
    repeat split. eexists. split; [|reflexivity]. reflexivity.
  - destruct r as [|status body]; [discriminate|].
    apply negb_false_iff in Hf.
    destruct body as [data|].
    + destruct (get data "conversationId") as [e|cid] eqn:Hcid.
      * destruct (resume_unreadable status (Some data) now stamp w Hf) as (e' & ->).
        { eauto. }
        simpl. repeat split. eexists. split; [|reflexivity]. reflexivity.
      * destruct (resume_answered status data cid now stamp w Hf Hcid)
          as (response & viz & _ & _ & ->).
        simpl. repeat split. eexists. split; [|destruct (truthy cid); reflexivity].
        reflexivity.
    + destruct (resume_unreadable status None now stamp w Hf I) as (e' & ->).
      simpl. repeat split. eexists. split; [|reflexivity]. reflexivity.
Qed.



Lemma resume_conversationId (r : FetchResult) (now stamp : Z) (w : Session) :
  conversationId (chat (fst (handleSendMessage_resume r now stamp w)))
  = match r with
    | Responded status (Some data) =>
        if ok status then
          match get data "conversationId" with
          | inr cid => if truthy cid then cid else conversationId (chat w)
          | inl _ => conversationId (chat w)
          end
        else conversationId (chat w)
    | _ => conversationId (chat w)
    end.
Proof.
  destruct (request_failed r) eqn:Hf.
  - destruct (resume_failed r now stamp w Hf) as (e & ->). simpl.
    destruct r as [|status [data|]]; try reflexivity.
    simpl in Hf. apply negb_true_iff in Hf. rewrite Hf. reflexivity.
  - destruct r as [|status body]; [discriminate|].
    apply negb_false_iff in Hf. rewrite Hf.
    destruct body as [data|].
    + destruct (get data "conversationId") as [e|cid] eqn:Hcid.
      * destruct (resume_unreadable status (Some data) now stamp w Hf) as (e' & ->);
          [eauto|reflexivity].
      * destruct (resume_answered status data cid now stamp w Hf Hcid)
          as (response & viz & _ & _ & ->).
        simpl. destruct (truthy cid); reflexivity.
    + destruct (resume_unreadable status None now stamp w Hf I) as (e' & ->).
      reflexivity.
Qed.

Lemma step_conversationId (a : action) (w : Session) :
  conversationId (chat (step a w))
  = match a with
    | ClearMessages => VNull
    | Reply r now stamp =>
        conversationId (chat (fst (handleSendMessage_resume r now stamp w)))
    | _ => conversationId (chat w)
    end.
Proof.
  destruct a as [m|id0 patch| |text now stamp|r now stamp]; try reflexivity.
  simpl. unfold handleSendMessage_begin.
  destruct (negb _); reflexivity.
Qed.

(** C8, as the code has it.  After a 2xx answer whose body carries a
    [conversationId], the session holds that identifier when it is truthy
    (for a string: not empty) and the identifier it held before otherwise (the
    property is missing, [null], the empty string, [0] or [false]).  The
    request of a send carries the identifier the session holds at that
    moment, and the send itself does not change it.  No operation on the
    session changes the identifier except [clearMessages] and the adoption
    just described. *)
Theorem conversation_identifier_adoption :
  (forall (status : Z) (data cid : value) (now stamp : Z) (w : Session),
      ok status = true ->
      get data "conversationId" = inr cid ->
      conversationId
        (chat (fst (handleSendMessage_resume (Responded status (Some data))
                      now stamp w)))
      = if truthy cid then cid else conversationId (chat w))
  /\ (forall (text : option string) (now stamp : Z) (w w1 : Session)
             (req : ChatRequest),
      handleSendMessage_begin text now stamp w = (w1, Some req) ->
      request_conversationId req = conversationId (chat w)
      /\ conversationId (chat w1) = conversationId (chat w))
  /\ (forall (a : action) (w : Session),
      conversationId (chat (step a w)) <> conversationId (chat w) ->
      a = ClearMessages
      \/ exists status data cid now stamp,
           a = Reply (Responded status (Some data)) now stamp
           /\ ok status = true
           /\ get data "conversationId" = inr cid
           /\ truthy cid = true
           /\ conversationId (chat (step a w)) = cid).
Proof.
  split; [|split].
  - intros status data cid now stamp w Hok Hcid.
    rewrite resume_conversationId, Hok, Hcid. reflexivity.
  - intros text now stamp w w1 req Hbegin.
    destruct (handleSendMessage_begin_sent _ _ _ _ _ _ Hbegin) as (_ & _ & Hreq & ->).
    split; [exact Hreq|reflexivity].
  - intros a w Hchange. rewrite step_conversationId in Hchange.
    destruct a as [m|id0 patch| |text now stamp|r now stamp];
      try congruence; [left; reflexivity|].
    right. rewrite resume_conversationId in Hchange.
    destruct r as [|status [data|]]; try congruence.
    destruct (ok status) eqn:Hok; try congruence.
    destruct (get data "conversationId") as [e|cid] eqn:Hcid; try congruence.
    destruct (truthy cid) eqn:Ht; try congruence.
    exists status, data, cid, now, stamp.
    repeat split; try assumption.
    simpl. rewrite resume_conversationId, Hok, Hcid, Ht. reflexivity.
Qed.

Lemma conversation_identifier_adoption_witness :
  conversationId
    (chat (fst (handleSendMessage_resume
                  (Responded 200 (Some (turn "Here you go" (VStr "c2"))))
                  1005 1005 (session busy_chat ""))))
  = VStr "c2"
  /\ request_conversationId
       {| request_message := "Top 5 cities"; request_conversationId := VStr "c1" |}
     = conversationId (chat (session busy_chat ""))
  /\ (ClearMessages = ClearMessages
      \/ exists status data cid now stamp,
           ClearMessages = Reply (Responded status (Some data)) now stamp
           /\ ok status = true
           /\ get data "conversationId" = inr cid
           /\ truthy cid = true
           /\ conversationId (chat (step ClearMessages (session busy_chat ""))) = cid).
Proof.
  destruct conversation_identifier_adoption as (Hadopt & Hsend & Honly).
  split; [|split].
  - apply (Hadopt 200%Z (turn "Here you go" (VStr "c2")) (VStr "c2")
             1005%Z 1005%Z (session busy_chat "")); reflexivity.
  - apply (Hsend (Some "Top 5 cities") 1000%Z 1000%Z (session busy_chat "")
             (fst (handleSendMessage_begin (Some "Top 5 cities") 1000 1000
                     (session busy_chat "")))
             {| request_message := "Top 5 cities";
                request_conversationId := VStr "c1" |}).
    reflexivity.
  - apply (Honly ClearMessages (session busy_chat "")). discriminate.
Defined.

(** C8 as stated fails: an answer can carry an identifier that is not
    adopted.  Here the session holds [c1], the 2xx answer carries the empty
    string as its [conversationId], and the session still holds [c1]
    afterwards. *)
Lemma empty_identifier_not_adopted :
  get (turn "Here you go" (VStr "")) "conversationId" = inr (VStr "")
  /\ conversationId
       (chat (fst (handleSendMessage_resume
                     (Responded 200 (Some (turn "Here you go" (VStr ""))))
                     1005 1005 (session busy_chat ""))))
     = VStr "c1"
  /\ conversationId
       (chat (fst (handleSendMessage_resume
                     (Responded 200 (Some (turn "Here you go" (VStr ""))))
                     1005 1005 (session busy_chat ""))))
     <> VStr "".
Proof. split; [reflexivity|]. split; [reflexivity|discriminate]. Qed.

(** The identifier is kept over any run of operations none of which changes
    it. *)
Lemma run_conversationId_kept (acts : list action) (w : Session) :
  Forall (fun a => forall w', conversationId (chat (step a w'))
                              = conversationId (chat w')) acts ->
  conversationId (chat (run acts w)) = conversationId (chat w).
Proof.
  revert w. induction acts as [|a acts IH]; intros w Hall; [reflexivity|].
  apply Forall_cons in Hall as [Ha Hacts].
  unfold run in *. simpl. rewrite IH by exact Hacts. apply Ha.
Qed.

(** Two sends in a row: the second request carries the identifier the first
    answer brought. *)
Example second_send_carries_identifier :
  snd (handleSendMessage_begin (Some "Top 5 cities") 2000 2000
         (run [Send (Some "Show sales by country") 1000 1000;
               Reply (Responded 200 (Some (turn "Here you go" (VStr "c2"))))
                     1005 1005]
              (session (initial 0) "")))
  = Some {| request_message := "Top 5 cities";
            request_conversationId := VStr "c2" |}.
Proof. reflexivity. Qed.

(** The identifiers of messages come from the clock: the assistant's message
    takes the reading plus one, and a send made at that very millisecond
    takes the same identifier. *)
Example clock_identifiers_can_collide :
  ids (chat (run [Send (Some "Show sales by country") 1000 1000;
                  Reply (Responded 200 (Some (turn "Here you go" VNull))) 1005 1005;
                  Send (Some "Top 5 cities") 1006 1006]
               (session (initial 0) "")))
  = ["1"; "1000"; "1006"; "1006"].
Proof. reflexivity. Qed.

End SendFacts.

(* ===================================================================== *)
(** * The table-information proxy route *)
(* ===================================================================== *)

Section TableRouteFacts.
Import JS Eff Fetch TableRoute.

(** C1.  When the fetch is rejected or the backend answers with a status
    that is not 2xx (503, say), the route answers with the body
    [{error: "Failed to fetch table information"}] and the status 500,
    whatever the backend's status was: a backend status other than 500 is
    never the status of the answer, and two failures of any kind get the
    same answer.  When the backend answers 2xx with a JSON
    body, the route answers with that very body (and the status 200). *)
Theorem table_route_outcomes :
  (forall (r : FetchResult) (log : Console),
      request_failed r = true ->
      exists e,
        GET r log
        = (log ++ [("Table info API error:", e)],
           inr {| status := 500;
                  body := VObj [("error", VStr "Failed to fetch table information")] |}))
  /\ (forall (backend_status : Z) (backend_body : option value) (log : Console)
             (answer : NextResponse),
      ok backend_status = false ->
      backend_status <> 500%Z ->
      snd (GET (Responded backend_status backend_body) log) = inr answer ->
      status answer <> backend_status)
  /\ (forall (r1 r2 : FetchResult) (log : Console),
      request_failed r1 = true ->
      request_failed r2 = true ->
      snd (GET r1 log) = snd (GET r2 log))
  /\ (forall (backend_status : Z) (data : value) (log : Console),
      ok backend_status = true ->
      GET (Responded backend_status (Some data)) log
      = (log, inr {| status := 200; body := data |})).
Proof.
  assert (Hfail : forall r log, request_failed r = true ->
            exists e, GET r log
                      = (log ++ [("Table info API error:", e)],
                         inr {| status := 500; body := error_body |})).
  { intros r log Hf. destruct r as [|backend_status backend_body]; simpl in Hf.
    - eexists. reflexivity.
    - apply negb_true_iff in Hf. eexists.
      unfold GET, try_catch, GET_try. rewrite Hf. reflexivity. }
  split; [exact Hfail|]. split; [|split].
  - intros backend_status backend_body log answer Hok Hne Hanswer.
    destruct (Hfail (Responded backend_status backend_body) log) as (e & E).
    { simpl. rewrite Hok. reflexivity. }
    rewrite E in Hanswer. simpl in Hanswer. injection Hanswer as <-. simpl.
    congruence.
  - intros r1 r2 log H1 H2.
    destruct (Hfail r1 log H1) as (e1 & ->).
    destruct (Hfail r2 log H2) as (e2 & ->). reflexivity.
  - intros backend_status data log Hok.
    unfold GET, try_catch, GET_try. rewrite Hok. reflexivity.
Qed.

Lemma table_route_outcomes_witness :
  snd (GET (Responded 503 (Some (VObj [("detail", VStr "Service Unavailable")]))) [])
  = inr {| status := 500;
           body := VObj [("error", VStr "Failed to fetch table information")] |}
  /\ snd (GET (Responded 200 (Some (VObj [("columns", VArr [])]))) [])
     = inr {| status := 200; body := VObj [("columns", VArr [])] |}.
Proof.
  destruct table_route_outcomes as (Hfail & _ & _ & Hpass).
  split.
  - destruct (Hfail (Responded 503 (Some (VObj [("detail", VStr "Service Unavailable")]))) [])
      as (e & E); [reflexivity|].
    rewrite E. reflexivity.
  - rewrite (Hpass 200%Z (VObj [("columns", VArr [])]) []); reflexivity.
Defined.

(** A 2xx answer whose body is not JSON is a failure too. *)
Example table_route_unreadable :
  snd (GET (Responded 200 None) [])
  = inr {| status := 500; body := error_body |}.
Proof. reflexivity. Qed.

End TableRouteFacts.

(* ===================================================================== *)
(** * The report page *)
(* ===================================================================== *)

Section ReportFacts.
Import JS Eff Reports Examples.

(** While a report is being generated the handler returns at once. *)
Lemma handleGenerate_generating (generateReport : ReportRequest -> M World unit)
    (p : Page) (w : World) :
  generating (hook w) = true ->
  handleGenerate generateReport p w = (w, inr tt).
Proof.
  intros Hg. unfold handleGenerate, bind, read. rewrite Hg. reflexivity.
Qed.

(** ** The query the page builds is never blank *)

Lemma trimEnd_head (c : ascii) (s : string) :
  is_white_space c = false -> truthy_string (trimEnd (String c s)) = true.
Proof.
  intros Hc. simpl. destruct (trimEnd s); [rewrite Hc|]; reflexivity.
Qed.

Lemma trim_head (c : ascii) (s : string) :
  is_white_space c = false -> truthy_string (trim (String c s)) = true.
Proof.
  intros Hc. unfold trim. simpl. rewrite Hc. apply trimEnd_head, Hc.
Qed.

Lemma buildQuery_head (p : Page) :
  exists c rest, buildQuery p = String c rest /\ is_white_space c = false.
Proof.
  unfold buildQuery, REPORT_TYPES, TIME_PERIODS.
  cbn [List.find type_value period_value].
  repeat match goal with
         | |- context [String.eqb ?a ?b] => destruct (String.eqb a b)
         end;
    cbn -[trim]; destruct (truthy_string (trim (notes p))); cbn -[trim];
    eexists _, _; (split; [reflexivity|reflexivity]).
Qed.

(** Every page state gives a query that survives the trimming: the guard
    on the empty query never stops a call made from the page, the notes
    being blank or not. *)
Lemma buildQuery_never_blank (p : Page) :
  truthy_string (trim (buildQuery p)) = true.
Proof.
  destruct (buildQuery_head p) as (c & rest & -> & Hc). apply trim_head, Hc.
Qed.

Lemma handleGenerate_idle (generateReport : ReportRequest -> M World unit)
    (p : Page) (w : World) :
  generating (hook w) = false ->
  handleGenerate generateReport p w
  = generateReport {| query := buildQuery p; format := "pdf" |} w.
Proof.
  intros Hg. unfold handleGenerate, bind, read, handleGenerate_with.
  rewrite Hg, buildQuery_never_blank. reflexivity.
Qed.


(** The same on the page as it is first shown, the notes empty. *)
Example empty_notes_are_requested :
  network (fst (handleGenerate eager_generateReport initial_page idle_world))
  = ["POST /api/report/generate Executive summary of key performance metrics | Time period: Last 30 days"].
Proof. reflexivity. Qed.



End ReportFacts.

(* ===================================================================== *)
(** * More on the chat panel *)
(* ===================================================================== *)

Section PanelFacts.
Import JS Eff Fetch Provider Chat Examples.
Local Open Scope eff_scope.

(** What the continuation of a send does to the session, whatever the
    answer: one assistant message with the identifier of the clock plus one,
    the flag cleared, the input left alone. *)
Lemma resume_shape (r : FetchResult) (now stamp : Z) (w : Session) :
  exists (m : ChatMessage) (c : value) (log : Console),
    id m = toString (now + 1) /\ role m = ai /\ timestamp m = stamp
    /\ handleSendMessage_resume r now stamp w
       = ({| chat := {| messages := messages (chat w) ++ [m]; conversationId := c |};
             input := input w; isLoading := false; console := log |}, inr tt).
Proof.
  destruct (request_failed r) eqn:Hf.
  - destruct (resume_failed r now stamp w Hf) as (e & ->).
    exists (errorMessage_of now stamp). eexists _, _. repeat split.
  - destruct r as [|status body]; [discriminate|].
    apply negb_false_iff in Hf.
    destruct body as [data|].
    + destruct (get data "conversationId") as [e|cid] eqn:Hcid.
      * destruct (resume_unreadable status (Some data) now stamp w Hf) as (e' & ->);
          [eauto|].
        exists (errorMessage_of now stamp). eexists _, _. repeat split.
      * destruct (resume_answered status data cid now stamp w Hf Hcid)
          as (response & viz & _ & _ & ->).
        exists {| id := toString (now + 1); role := ai;
                  content := or_else response (VStr "No response from AI");
                  timestamp := stamp; visualization := viz |}.
        exists (if truthy cid then cid else conversationId (chat w)).
        eexists. split; [reflexivity|]. split; [reflexivity|].
        split; [reflexivity|].
        unfold addMessage, setMessages. simpl.
        destruct (truthy cid); reflexivity.
    + destruct (resume_unreadable status None now stamp w Hf I) as (e' & ->).
      exists (errorMessage_of now stamp). eexists _, _. repeat split.
Qed.

(** X1.  A send with nothing to say is dropped: when no text is passed (or
    the empty text) and the input is empty once trimmed, the handler returns
    before anything happens.  The log, the input as typed, the loading flag
    and the console are what they were, and no request is issued. *)
Theorem blank_send_is_dropped (text : option string) (now1 stamp1 : Z)
    (r : FetchResult) (now2 stamp2 : Z) (w : Session) :
  text = None \/ text = Some "" ->
  trim (input w) = "" ->
  handleSendMessage_begin text now1 stamp1 w = (w, None)
  /\ handleSendMessage text now1 stamp1 r now2 stamp2 w = (w, inr tt).
Proof.
  intros Htext Hblank.
  assert (E : handleSendMessage_begin text now1 stamp1 w = (w, None)).
  { apply handleSendMessage_begin_blank. unfold messageText_of.
    destruct Htext as [->| ->]; simpl; rewrite Hblank; reflexivity. }
  split; [exact E|]. unfold handleSendMessage. rewrite E. reflexivity.
Qed.

Lemma blank_send_is_dropped_witness :
  handleSendMessage None 1000 1000 (Responded 200 (Some (turn "hi" VNull)))
    1005 1005 (session busy_chat "   ")
  = (session busy_chat "   ", inr tt).
Proof.
  apply (blank_send_is_dropped None 1000 1000 _ 1005 1005 (session busy_chat "   "));
    [left; reflexivity|reflexivity].
Defined.

(** X2.  A send that issued its request always comes to an end, whatever
    the backend answers (a rejected fetch, any status, any body): nothing is
    thrown out of the handler, the loading flag is cleared, the input is
    empty, and the log has grown by exactly two messages, the user's and one
    of the assistant whose identifier is the second clock reading plus
    one. *)
Theorem send_always_answers (text : option string) (now1 stamp1 : Z)
    (r : FetchResult) (now2 stamp2 : Z) (w w1 : Session) (req : ChatRequest) :
  handleSendMessage_begin text now1 stamp1 w = (w1, Some req) ->
  snd (handleSendMessage text now1 stamp1 r now2 stamp2 w) = inr tt
  /\ isLoading (fst (handleSendMessage text now1 stamp1 r now2 stamp2 w)) = false
  /\ input (fst (handleSendMessage text now1 stamp1 r now2 stamp2 w)) = ""
  /\ exists m : ChatMessage,
       role m = ai /\ id m = toString (now2 + 1)
       /\ messages (chat (fst (handleSendMessage text now1 stamp1 r now2 stamp2 w)))
          = messages (chat w)
            ++ [userMessage_of (request_message req) now1 stamp1; m].
Proof.
  intros Hbegin.
  destruct (handleSendMessage_begin_sent _ _ _ _ _ _ Hbegin) as (_ & _ & _ & Hw1).
  unfold handleSendMessage. rewrite Hbegin.
  destruct (resume_shape r now2 stamp2 w1) as (m & c & log & Hid & Hrole & _ & ->).
  simpl. split; [reflexivity|]. split; [reflexivity|].
  split; [rewrite Hw1; reflexivity|].
  exists m. split; [exact Hrole|]. split; [exact Hid|].
  rewrite Hw1. simpl. rewrite <- app_assoc. reflexivity.
Qed.

Lemma send_always_answers_witness :
  snd (handleSendMessage (Some "Top 5 cities") 1000 1000 (Responded 200 None)
         1005 1005 (session busy_chat ""))
  = inr tt.
Proof.
  apply (send_always_answers (Some "Top 5 cities") 1000 1000 (Responded 200 None)
           1005 1005 (session busy_chat "")
           (fst (handleSendMessage_begin (Some "Top 5 cities") 1000 1000
                   (session busy_chat "")))
           {| request_message := "Top 5 cities";
              request_conversationId := VStr "c1" |}).
  reflexivity.
Defined.

(** X3.  After a 2xx answer whose body is not [null], the assistant's
    message holds the [response] of the body when it is truthy and the text
    "No response from AI" otherwise (no [response], an empty one), and the
    [visualization] of the body as it came, unchecked.  Nothing is written
    to the console. *)
Theorem answered_turn_message (status : Z) (data response viz : value)
    (now stamp : Z) (w : Session) :
  ok status = true ->
  get data "response" = inr response ->
  get data "visualization" = inr viz ->
  let w' := fst (handleSendMessage_resume (Responded status (Some data)) now stamp w) in
  messages (chat w')
  = messages (chat w)
    ++ [ {| id := toString (now + 1); role := ai;
            content := if truthy response then response
                       else VStr "No response from AI";
            timestamp := stamp; visualization := viz |} ]
  /\ console w' = console w.
Proof.
  intros Hok Hr Hv w'.
  assert (Hn : nullish data = false).
  { destruct data; try reflexivity; discriminate. }
  destruct (get_defined data "conversationId" Hn) as (cid & Hcid).
  destruct (resume_answered status data cid now stamp w Hok Hcid)
    as (response' & viz' & Hr' & Hv' & E).
  assert (response' = response) as -> by congruence.
  assert (viz' = viz) as -> by congruence.
  unfold w'. rewrite E. simpl.
  split; [|reflexivity]. destruct (truthy cid); reflexivity.
Qed.

Lemma answered_turn_message_witness :
  messages (chat (fst (handleSendMessage_resume
                         (Responded 200 (Some (VObj [("response", VStr "")])))
                         1005 1005 (session empty_chat ""))))
  = [ {| id := "1006"; role := ai; content := VStr "No response from AI";
         timestamp := 1005; visualization := VUndefined |} ].
Proof.
  apply (answered_turn_message 200 (VObj [("response", VStr "")]) (VStr "") VUndefined
           1005 1005 (session empty_chat "")); reflexivity.
Defined.

(** X4.  A 2xx answer that cannot be used is handled like a failure: when
    the body is not JSON, or is the JSON value [null], the assistant's
    message is the apology, the error goes to the console and the
    conversation identifier stays as it was. *)
Theorem unreadable_answer_apologizes (status : Z) (body : option value)
    (now stamp : Z) (w : Session) :
  ok status = true ->
  body = None \/ body = Some VNull ->
  let w' := fst (handleSendMessage_resume (Responded status body) now stamp w) in
  messages (chat w') = messages (chat w) ++ [errorMessage_of now stamp]
  /\ conversationId (chat w') = conversationId (chat w)
  /\ exists e, console w' = console w ++ [("Chat error:", e)].
Proof.
  intros Hok Hbody w'.
  destruct (resume_unreadable status body now stamp w Hok) as (e & E).
  { destruct Hbody as [->| ->]; [exact I|]. eexists. reflexivity. }
  unfold w'. rewrite E. simpl. repeat split. exists e. reflexivity.
Qed.

Lemma unreadable_answer_apologizes_witness :
  messages (chat (fst (handleSendMessage_resume (Responded 200 (Some VNull))
                         1005 1005 (session empty_chat ""))))
  = [errorMessage_of 1005 1005].
Proof.
  apply (unreadable_answer_apologizes 200 (Some VNull) 1005 1005
           (session empty_chat "")); [reflexivity|right; reflexivity].
Defined.

End PanelFacts.

Section PanelControls.
Import JS Eff Fetch Provider Chat Examples.
Local Open Scope eff_scope.

(** X5.  The send button and the handler agree.  When the button is enabled
    (nothing is pending and the input is not blank) a click issues a request
    whose message is the trimmed input; from then on the button is disabled,
    until the answer has come and also after it, the input being empty
    again: a second click cannot start a second send of the same text. *)
Theorem enabled_button_sends (now stamp : Z) (w : Session) :
  sendDisabled w = false ->
  exists (w1 : Session) (req : ChatRequest),
    handleSendMessage_begin None now stamp w = (w1, Some req)
    /\ request_message req = trim (input w)
    /\ sendDisabled w1 = true
    /\ forall (r : FetchResult) (now2 stamp2 : Z),
         sendDisabled (fst (handleSendMessage_resume r now2 stamp2 w1)) = true.
Proof.
  unfold sendDisabled. intros Hen.
  apply orb_false_iff in Hen as [Hload Htext]. apply negb_false_iff in Htext.
  unfold handleSendMessage_begin. simpl messageText_of. rewrite Htext. simpl.
  eexists _, _. split; [reflexivity|]. simpl.
  split; [reflexivity|]. split; [reflexivity|].
  intros r now2 stamp2.
  match goal with
  | |- context [handleSendMessage_resume r now2 stamp2 ?w1] =>
      destruct (resume_shape r now2 stamp2 w1) as (m & c & log & _ & _ & _ & ->)
  end.
  reflexivity.
Qed.

Lemma enabled_button_sends_witness :
  exists (w1 : Session) (req : ChatRequest),
    handleSendMessage_begin None 1000 1000 (session busy_chat " Top 5 cities ")
    = (w1, Some req)
    /\ request_message req = "Top 5 cities"
    /\ sendDisabled w1 = true.
Proof.
  destruct (enabled_button_sends 1000 1000 (session busy_chat " Top 5 cities "))
    as (w1 & req & H1 & H2 & H3 & _); [reflexivity|].
  exists w1, req. split; [exact H1|]. split; [exact H2|exact H3].
Defined.

Lemma step_keeps_log_nonempty (a : action) (w : Session) :
  a <> ClearMessages ->
  showsSuggestions w = false ->
  showsSuggestions (step a w) = false.
Proof.
  unfold showsSuggestions. intros Ha Hw.
  apply Nat.eqb_neq in Hw. apply Nat.eqb_neq.
  destruct a as [m|id0 patch| |text now stamp|r now stamp]; simpl.
  - rewrite length_app. simpl. lia.
  - rewrite length_map. exact Hw.
  - congruence.
  - unfold handleSendMessage_begin. destruct (negb _); simpl; [exact Hw|].
    rewrite length_app. simpl. lia.
  - destruct (resume_shape r now stamp w) as (m & c & log & _ & _ & _ & ->).
    simpl. rewrite length_app. simpl. lia.
Qed.

(** X6.  The quick queries are on screen only while the log is empty.  The
    session starts with the greeting in its log, and no operation but
    [clearMessages] empties a log: from the initial session, no sequence of
    sends, answers, appends and updates ever shows them.  When they are shown
    (after a clear), a click on one sends that query as it is, whatever is
    typed in the input, and hides them. *)
Theorem suggestions_need_a_clear :
  (forall (acts : list action) (now : Z) (typed : string),
      ~ In ClearMessages acts ->
      showsSuggestions (run acts (session (initial now) typed)) = false)
  /\ (forall w : Session, showsSuggestions (step ClearMessages w) = true)
  /\ (forall (query0 : string) (now stamp : Z) (w : Session),
      In query0 SUGGESTED_QUERIES ->
      exists w1 : Session,
        handleSendMessage_begin (Some query0) now stamp w
        = (w1, Some {| request_message := query0;
                       request_conversationId := conversationId (chat w) |})
        /\ showsSuggestions w1 = false).
Proof.
  split; [|split].
  - intros acts now typed.
    assert (G : forall w, showsSuggestions w = false -> ~ In ClearMessages acts ->
                          showsSuggestions (run acts w) = false).
    { induction acts as [|a acts IH]; intros w Hw Hno; [exact Hw|].
      unfold run in *. simpl. apply IH.
      - apply step_keeps_log_nonempty; [|exact Hw].
        intros ->. apply Hno. left. reflexivity.
      - intros Hin. apply Hno. right. exact Hin. }
    apply G. reflexivity.
  - reflexivity.
  - intros query0 now stamp w Hin.
    assert (Ht : truthy_string query0 = true).
    { simpl in Hin. destruct Hin as [<-|[<-|[<-|[<-|[]]]]]; reflexivity. }
    unfold handleSendMessage_begin.
    assert (Hm : messageText_of (Some query0) w = query0).
    { unfold messageText_of. rewrite Ht. reflexivity. }
    rewrite Hm, Ht. simpl. eexists. split; [reflexivity|].
    unfold showsSuggestions. simpl. rewrite length_app. simpl.
    apply Nat.eqb_neq. lia.
Qed.

Lemma suggestions_need_a_clear_witness :
  showsSuggestions
    (run [Send (Some "Top 5 cities") 1000 1000; Reply Rejected 1005 1005]
         (session (initial 0) "")) = false
  /\ exists w1 : Session,
       handleSendMessage_begin (Some "Top 5 cities") 1000 1000
         (session empty_chat "typed")
       = (w1, Some {| request_message := "Top 5 cities";
                      request_conversationId := VNull |})
       /\ showsSuggestions w1 = false.
Proof.
  destruct suggestions_need_a_clear as (Hrun & _ & Hclick).
  split.
  - apply Hrun. simpl. intros [H|[H|[]]]; discriminate.
  - apply (Hclick "Top 5 cities" 1000%Z 1000%Z (session empty_chat "typed")).
    simpl. tauto.
Defined.

(** X7.  Every slice of the pie gets one of the six colours: the index is
    reduced modulo the length of the palette, so that no slice is left
    without a fill however many rows there are, and the colours repeat every
    six slices. *)
Theorem pie_cells_coloured (data : list value) (i : nat) :
  i < List.length data ->
  (exists c : string,
      nth_error (pie_cells data) i = Some (Some c) /\ In c CHART_COLORS)
  /\ cell_fill (i + 6) = cell_fill i.
Proof.
  intros Hi. split.
  - unfold pie_cells.
    assert (Hc : exists c, cell_fill i = Some c).
    { unfold cell_fill.
      destruct (nth_error CHART_COLORS (i mod List.length CHART_COLORS)) as [c|] eqn:E;
        [eauto|].
      apply nth_error_None in E.
      pose proof (Nat.mod_upper_bound i (List.length CHART_COLORS)) as Hb.
      simpl in *. lia. }
    destruct Hc as (c & Hc). exists c. split.
    + rewrite nth_error_map, nth_error_seq.
      destruct (Nat.ltb_spec i (List.length data)); [|lia]. simpl.
      rewrite Hc. reflexivity.
    + unfold cell_fill in Hc. apply nth_error_In in Hc. exact Hc.
  - unfold cell_fill. simpl List.length.
    replace (i + 6) with (i + 1 * 6) by lia.
    rewrite Nat.Div0.mod_add. reflexivity.
Qed.

Lemma pie_cells_coloured_witness :
  exists c : string,
    nth_error (pie_cells sales_rows) 1 = Some (Some c) /\ In c CHART_COLORS.
Proof.
  destruct (pie_cells_coloured sales_rows 1) as (H & _); [simpl; lia|exact H].
Defined.

End PanelControls.

Section ExplicitMapping.
Import JS Eff Fetch Provider Chat Examples.
Local Open Scope eff_scope.

Lemma config_field_value (visualization config x : value) (name : string)
    (log : Trace) :
  get visualization "config" = inr config ->
  get_opt config name = inr x ->
  config_field visualization name log = (log, inr x).
Proof.
  intros Hc Hx. unfold config_field, bind, lift. rewrite Hc, Hx. reflexivity.
Qed.

Lemma orM_config (visualization config x : value) (name : string)
    (b : M Trace value) (log : Trace) :
  get visualization "config" = inr config ->
  get_opt config name = inr x ->
  orM (config_field visualization name) b log
  = if truthy x then (log, inr x) else b log.
Proof.
  intros Hc Hx. unfold orM, bind.
  rewrite (config_field_value visualization config x name log Hc Hx).
  destruct (truthy x); reflexivity.
Qed.

(** With a mapping for both fields the keys of the rows are not
    consulted. *)
Lemma resolveFields_explicit (visualization config lk xk vk yk : value)
    (data : list value) :
  get visualization "config" = inr config ->
  get_opt config "labelKey" = inr lk ->
  get_opt config "xKey" = inr xk ->
  get_opt config "valueKey" = inr vk ->
  get_opt config "yKey" = inr yk ->
  truthy (or_else lk xk) = true ->
  truthy (or_else vk yk) = true ->
  exec (resolveFields visualization data)
  = ([CallObjectKeys (coalesce (nth 0 data VUndefined) (VObj []))],
     inr (or_else lk xk, or_else vk yk)).
Proof.
  intros Hc Hlk Hxk Hvk Hyk Hl Hv.
  unfold exec, resolveFields, objectKeys, tell.
  destruct (Object_keys_defined (coalesce (nth 0 data VUndefined) (VObj [])))
    as (keys & Ek).
  { apply coalesce_not_nullish. reflexivity. }
  unfold bind at 1. unfold bind at 1. unfold modify, lift. rewrite Ek.
  cbv beta iota. unfold bind at 1.
  rewrite (orM_config _ _ _ _ _ _ Hc Hlk).
  unfold or_else in Hl, Hv |- *.
  destruct (truthy lk) eqn:Tl.
  - unfold bind at 1. rewrite (orM_config _ _ _ _ _ _ Hc Hvk).
    destruct (truthy vk) eqn:Tv; [reflexivity|].
    rewrite (orM_config _ _ _ _ _ _ Hc Hyk), Hv. reflexivity.
  - rewrite (orM_config _ _ _ _ _ _ Hc Hxk), Hl.
    unfold bind at 1. rewrite (orM_config _ _ _ _ _ _ Hc Hvk).
    destruct (truthy vk) eqn:Tv; [reflexivity|].
    rewrite (orM_config _ _ _ _ _ _ Hc Hyk), Hv. reflexivity.
Qed.

(** X8.  An explicit mapping wins over the keys of the rows.  When
    [config] gives a category field ([labelKey], or [xKey] when [labelKey] is
    not set) and a value field ([valueKey], or [yKey] when [valueKey] is not
    set), these are the two fields, whatever the rows are: the keys of the
    first row are listed but [find] is not called, and a payload with rows
    is never answered with "Cannot determine visualization fields.", not even
    when its first row has no key at all. *)
Theorem explicit_mapping_precedence (props : list (string * value))
    (config lk xk vk yk first : value) (rest : list value) :
  lookup_prop "config" props = config ->
  lookup_prop "data" props = VArr (first :: rest) ->
  get_opt config "labelKey" = inr lk ->
  get_opt config "xKey" = inr xk ->
  get_opt config "valueKey" = inr vk ->
  get_opt config "yKey" = inr yk ->
  truthy (or_else lk xk) = true ->
  truthy (or_else vk yk) = true ->
  let labelKey := if truthy lk then lk else xk in
  let valueKey := if truthy vk then vk else yk in
  let type := lookup_prop "type" props in
  exec (resolveFields (VObj props) (first :: rest))
  = ([CallObjectKeys (coalesce first (VObj []))], inr (labelKey, valueKey))
  /\ exec (VisualizationPreview (VObj props))
     = ([CallObjectKeys (coalesce first (VObj []))],
        inr (Preview type (chart_of type (first :: rest) labelKey valueKey))).
Proof.
  intros Hc Hd Hlk Hxk Hvk Hyk Hl Hv labelKey valueKey type.
  assert (E : exec (resolveFields (VObj props) (first :: rest))
              = ([CallObjectKeys (coalesce first (VObj []))],
                 inr (labelKey, valueKey))).
  { apply (resolveFields_explicit (VObj props) config lk xk vk yk (first :: rest));
      try assumption. simpl. rewrite Hc. reflexivity. }
  split; [exact E|].
  unfold exec in *. unfold VisualizationPreview.
  unfold bind at 1. unfold lift at 1. simpl get. cbv beta iota.
  rewrite Hd. cbv beta iota.
  change (length (first :: rest) =? 0)%nat with false. cbv iota.
  unfold bind at 1. rewrite E. cbv beta iota. unfold fst, snd.
  fold labelKey in Hl. fold valueKey in Hv.
  unfold or_else in Hl, Hv. fold labelKey in Hl. fold valueKey in Hv.
  rewrite Hl, Hv. reflexivity.
Qed.

Lemma explicit_mapping_precedence_witness :
  exec (VisualizationPreview
          (VObj [("type", VStr "bar"); ("data", VArr [VNull]);
                 ("config", VObj [("xKey", VStr "month"); ("yKey", VStr "total")])]))
  = ([CallObjectKeys (VObj [])],
     inr (Preview (VStr "bar")
            (Some (BarPreview [VNull] (VStr "month") (VStr "total"))))).
Proof.
  apply (explicit_mapping_precedence
           [("type", VStr "bar"); ("data", VArr [VNull]);
            ("config", VObj [("xKey", VStr "month"); ("yKey", VStr "total")])]
           (VObj [("xKey", VStr "month"); ("yKey", VStr "total")])
           VUndefined (VStr "month") VUndefined (VStr "total") VNull []);
    reflexivity.
Defined.

(** X9.  The preview expression of a message, [msg.visualization &&
    msg.role === "ai" && <VisualizationPreview ... />], evaluated with the
    body of the component up to the element it returns, never throws,
    whatever the backend put into [visualization]: a string, a number, an
    array, an object with any [data], [config] and [type].  A falsy payload
    and a message of the user never reach the component, and nothing is
    resolved for them; a truthy payload of an assistant message always
    gives an element.  The statement ends at the returned element: its
    [type] is carried as it came, and what React and the chart library do
    with the element is not part of it. *)
Theorem preview_element_always_built (msg : ChatMessage) (log : Trace) :
  exists (log' : Trace) (shown : option rendered),
    renderVisualization msg log = (log', inr shown)
    /\ (truthy (visualization msg) = false -> shown = None /\ log' = log)
    /\ (role msg = user -> shown = None /\ log' = log)
    /\ (truthy (visualization msg) = true -> role msg = ai ->
          exists element : rendered, shown = Some element).
Proof.
  destruct (returns_renderVisualization msg log) as (log' & shown & E).
  exists log', shown. split; [exact E|].
  unfold renderVisualization in E.
  split; [|split].
  - intros Hf. rewrite Hf in E. simpl in E.
    unfold ret in E. injection E as <- <-. split; reflexivity.
  - intros Hu. rewrite Hu in E. rewrite andb_false_r in E.
    unfold ret in E. injection E as <- <-. split; reflexivity.
  - intros Ht Ha. rewrite Ht, Ha in E. simpl in E. unfold bind in E.
    destruct (VisualizationPreview (visualization msg) log) as [l [e|element]].
    + discriminate E.
    + unfold ret in E. injection E as _ <-. exists element. reflexivity.
Qed.

(** An assistant message whose payload has rows and an object for [type]:
    the fields are resolved from the first row and an element is returned;
    a message of the user with the same payload shows nothing. *)
Lemma preview_element_always_built_witness :
  (exists (log' : Trace) (element : rendered),
     renderVisualization
       {| id := "9"; role := ai; content := VStr "chart"; timestamp := 9;
          visualization := VObj [("type", VObj []); ("data", VArr sales_rows)] |} []
     = (log', inr (Some element)))
  /\ renderVisualization
       {| id := "9"; role := user; content := VStr "chart"; timestamp := 9;
          visualization := VObj [("type", VObj []); ("data", VArr sales_rows)] |} []
     = ([], inr None)
  /\ renderVisualization
       {| id := "9"; role := ai; content := VStr "chart"; timestamp := 9;
          visualization := VNull |} []
     = ([], inr None).
Proof.
  split; [|split].
  - destruct (preview_element_always_built
                {| id := "9"; role := ai; content := VStr "chart"; timestamp := 9;
                   visualization := VObj [("type", VObj []); ("data", VArr sales_rows)] |}
                [])
      as (log' & shown & E & _ & _ & H).
    destruct (H eq_refl eq_refl) as (element & ->).
    exists log', element. exact E.
  - destruct (preview_element_always_built
                {| id := "9"; role := user; content := VStr "chart"; timestamp := 9;
                   visualization := VObj [("type", VObj []); ("data", VArr sales_rows)] |}
                [])
      as (log' & shown & E & _ & H & _).
    destruct (H eq_refl) as (-> & ->). exact E.
  - destruct (preview_element_always_built
                {| id := "9"; role := ai; content := VStr "chart"; timestamp := 9;
                   visualization := VNull |} [])
      as (log' & shown & E & H & _ & _).
    destruct (H eq_refl) as (-> & ->). exact E.
Defined.

(** The element returned for a [type] that is an object: the type is in it
    as it came, and no chart is chosen. *)
Example preview_of_object_type :
  snd (exec (VisualizationPreview
               (VObj [("type", VObj []); ("data", VArr sales_rows)])))
  = inr (Preview (VObj []) None).
Proof. reflexivity. Qed.

(** The guard of the call site is needed: the component itself throws on
    [null]. *)
Example VisualizationPreview_null_throws :
  exec (VisualizationPreview VNull)
  = ([], inl (TypeError "Cannot read properties of null")).
Proof. reflexivity. Qed.

End ExplicitMapping.

Section Identifiers.
Import JS Eff Fetch Provider Chat Examples.
Local Open Scope Z_scope.

Lemma to_int_not_nil (z : Z) :
  Z.to_int z <> Decimal.Pos Decimal.Nil /\ Z.to_int z <> Decimal.Neg Decimal.Nil.
Proof.
  destruct z; simpl; split; try discriminate;
    intros H; injection H as H; revert H; apply Unsigned.to_uint_nonnil.
Qed.

(** Two numbers print alike only when they are equal. *)
Lemma toString_inj (n m : Z) : toString n = toString m -> n = m.
Proof.
  unfold toString. intros H. apply to_int_inj.
  destruct (to_int_not_nil n) as [Hn1 Hn2].
  destruct (to_int_not_nil m) as [Hm1 Hm2].
  pose proof (NilZero.isi _ Hn1 Hn2) as E1.
  pose proof (NilZero.isi _ Hm1 Hm2) as E2.
  rewrite H in E1. rewrite E1 in E2. congruence.
Qed.

Lemma ids_below_weaken (b b' : Z) (s : ChatState) :
  b <= b' -> ids_below b s -> ids_below b' s.
Proof.
  intros Hb. unfold ids_below. intros H.
  eapply List.Forall_impl; [|exact H].
  intros i (n & -> & Hn). exists n. split; [reflexivity|lia].
Qed.

Lemma ids_below_fresh (b n : Z) (s : ChatState) :
  ids_below b s -> b <= n -> ~ In (toString n) (ids s).
Proof.
  unfold ids_below. intros Hall Hn Hin.
  rewrite List.Forall_forall in Hall.
  destruct (Hall _ Hin) as (m & E & Hm).
  apply toString_inj in E. lia.
Qed.

Lemma take_turn_ids (t : Turn) (w : Session) :
  ids (chat (take_turn t w)) = ids (chat w)
  \/ ids (chat (take_turn t w))
     = ids (chat w) ++ [toString (turn_now1 t); toString (turn_now2 t + 1)].
Proof.
  unfold take_turn, handleSendMessage.
  destruct (handleSendMessage_begin _ _ _ w) as [w1 [req|]] eqn:Hb.
  - right.
    destruct (handleSendMessage_begin_sent _ _ _ _ _ _ Hb) as (_ & _ & _ & Hw1).
    destruct (resume_shape (turn_result t) (turn_now2 t) (turn_stamp2 t) w1)
      as (m & c & log & Hid & _ & _ & ->).
    unfold ids. simpl. rewrite Hw1. simpl.
    rewrite !map_app. simpl. rewrite Hid, <- app_assoc. reflexivity.
  - left. unfold handleSendMessage_begin in Hb.
    destruct (negb _); [|discriminate]. injection Hb as <-. reflexivity.
Qed.

Lemma take_turn_keeps_ids (t : Turn) (bound : Z) (w : Session) :
  NoDup (ids (chat w)) ->
  ids_below bound (chat w) ->
  bound <= turn_now1 t ->
  turn_now1 t <= turn_now2 t ->
  NoDup (ids (chat (take_turn t w)))
  /\ ids_below (turn_now2 t + 2) (chat (take_turn t w)).
Proof.
  intros Hnd Hbelow H1 H2.
  destruct (take_turn_ids t w) as [E|E].
  - unfold ids_below. rewrite E. split; [exact Hnd|].
    apply (ids_below_weaken bound); [lia|exact Hbelow].
  - unfold ids_below. rewrite E. split.
    + apply NoDup_app. split; [exact Hnd|]. split.
      * intros i Hi Hi'. apply list_elem_of_In in Hi.
        rewrite !elem_of_cons, elem_of_nil in Hi'.
        destruct Hi' as [->|[->|[]]].
        -- apply (ids_below_fresh bound (turn_now1 t) (chat w)); assumption.
        -- apply (ids_below_fresh bound (turn_now2 t + 1) (chat w)); [assumption|lia|assumption].
      * apply NoDup_cons. split; [|apply NoDup_singleton].
        rewrite elem_of_cons, elem_of_nil. intros [H|[]].
        apply toString_inj in H. lia.
    + apply Forall_app. split.
      * apply (ids_below_weaken bound (turn_now2 t + 2) (chat w)); [lia|exact Hbelow].
      * repeat constructor.
        -- exists (turn_now1 t). split; [reflexivity|lia].
        -- exists (turn_now2 t + 1). split; [reflexivity|lia].
Qed.

(** X10.  The identifiers of the messages come from the clock: the user's
    message takes the reading at the send, the assistant's the reading at the
    answer plus one.  As long as the clock does not run backwards and each
    send is made at least two milliseconds after the answer before it was
    read, the identifiers of the log stay pairwise distinct over any number
    of turns, from the initial session in particular. *)
Theorem clock_identifiers_distinct :
  (forall (ts : list Turn) (bound : Z) (w : Session),
      NoDup (ids (chat w)) ->
      ids_below bound (chat w) ->
      clock_ok bound ts ->
      NoDup (ids (chat (take_turns ts w))))
  /\ (forall (ts : list Turn) (now : Z) (typed : string),
      clock_ok 2 ts ->
      NoDup (ids (chat (take_turns ts (session (initial now) typed))))).
Proof.
  assert (G : forall ts bound w,
             NoDup (ids (chat w)) -> ids_below bound (chat w) ->
             clock_ok bound ts -> NoDup (ids (chat (take_turns ts w)))).
  { induction ts as [|t ts IH]; intros bound w Hnd Hbelow Hclock;
      [exact Hnd|].
    destruct Hclock as (H1 & H2 & Hrest).
    destruct (take_turn_keeps_ids t bound w Hnd Hbelow H1 H2) as (Hnd' & Hbelow').
    unfold take_turns in *. simpl. apply (IH (turn_now2 t + 2)); assumption. }
  split; [exact G|].
  intros ts now typed Hclock2. apply (G ts 2).
  - simpl. apply NoDup_singleton.
  - unfold ids_below. simpl. repeat constructor.
    exists 1. split; [reflexivity|lia].
  - exact Hclock2.
Qed.

Lemma clock_identifiers_distinct_witness :
  NoDup (ids (chat (take_turns
                      [ mkTurn (Some "Show sales by country") 1000 1000
                          (Responded 200 (Some (turn "Here you go" (VStr "c2"))))
                          1005 1005;
                        mkTurn (Some "Top 5 cities") 1007 1007 Rejected 1007 1007 ]
                      (session (initial 0) "")))).
Proof.
  destruct clock_identifiers_distinct as (_ & Hinitial).
  apply Hinitial. simpl. lia.
Defined.

End Identifiers.

Section ProviderComposition.
Import JS Provider Examples.

Lemma spread_twice (msg : ChatMessage) (patch : Patch) :
  spread (spread msg patch) patch = spread msg patch.
Proof.
  destruct patch as [[i|] [r|] [c|] [t|] [v|]]; reflexivity.
Qed.

(** X11.  Applying the same update twice is the same as applying it once,
    as long as the patch does not carry an [id].  (A patch with an [id]
    renames the message, and the second application then looks for the old
    name.) *)
Theorem updateMessage_idempotent (id0 : string) (patch : Patch) (s : ChatState) :
  patch_id patch = None ->
  updateMessage id0 patch (updateMessage id0 patch s) = updateMessage id0 patch s.
Proof.
  intros Hid. destruct s as [log cid]. unfold updateMessage, setMessages. simpl.
  f_equal. rewrite map_map. apply map_ext. intros msg.
  destruct (String.eqb (id msg) id0) eqn:E.
  - assert (Hsame : id (spread msg patch) = id msg).
    { simpl. rewrite Hid. reflexivity. }
    rewrite Hsame, E. apply spread_twice.
  - rewrite E. reflexivity.
Qed.

Lemma updateMessage_idempotent_witness :
  updateMessage "8" content_patch (updateMessage "8" content_patch busy_chat)
  = updateMessage "8" content_patch busy_chat.
Proof. apply updateMessage_idempotent. reflexivity. Defined.

(** X12.  Appending a message whose identifier is new to the log and then
    updating that identifier gives the log one gets by appending the merged
    message: the update reaches the message just appended and nothing
    else. *)
Theorem append_then_update (m : ChatMessage) (patch : Patch) (s : ChatState) :
  ~ In (id m) (ids s) ->
  updateMessage (id m) patch (addMessage m s) = addMessage (spread m patch) s.
Proof.
  intros Hfresh. destruct s as [log cid].
  unfold updateMessage, addMessage, setMessages. simpl. f_equal.
  rewrite map_app. simpl. rewrite String.eqb_refl. f_equal.
  apply map_unchanged. intros msg Hmsg.
  destruct (String.eqb (id msg) (id m)) eqn:E; [|reflexivity].
  apply String.eqb_eq in E. exfalso. apply Hfresh. unfold ids. simpl.
  rewrite <- E. apply in_map. apply list_elem_of_In. exact Hmsg.
Qed.

Lemma append_then_update_witness :
  updateMessage "8" content_patch (addMessage message8 (addMessage message7 empty_chat))
  = addMessage (spread message8 content_patch) (addMessage message7 empty_chat).
Proof.
  apply (append_then_update message8 content_patch (addMessage message7 empty_chat)).
  simpl. intros [H|[]]. discriminate.
Defined.

End ProviderComposition.

(* ===================================================================== *)
(** * The other proxy routes *)
(* ===================================================================== *)

Section RouteFacts.
Import JS Eff Fetch TableRoute Routes.
Local Open Scope eff_scope.

(** What every route does once its call is ready: the call is made once,
    and the answer is the backend's JSON with status 200, or the route's own
    error with status 500. *)
Lemma forwarded (c : BackendCall) (label message : string) (r : FetchResult)
    (w : RouteWorld) :
  exists (answer : NextResponse) (log : Console),
    try_catch (response <- fetch c r ;; relay response) (failure label message) w
    = ({| console := log; calls := calls w ++ [c] |}, inr answer)
    /\ (request_failed r = true ->
        answer = {| status := 500; body := VObj [("error", VStr message)] |}
        /\ exists e, log = console w ++ [(label, e)])
    /\ (forall s data, r = Responded s (Some data) -> ok s = true ->
        answer = {| status := 200; body := data |} /\ log = console w).
Proof.
  unfold try_catch, bind, fetch, modify, relay, failure, ret, throw.
  destruct r as [|s [data|]]; simpl.
  - eexists _, _. split; [reflexivity|]. split.
    + intros _. split; [reflexivity|]. eexists. reflexivity.
    + intros s data H. discriminate.
  - destruct (ok s) eqn:Hok; simpl.
    + eexists _, _. split; [reflexivity|]. split.
      * intros H. discriminate.
      * intros s' data' H _. injection H as <- <-. split; reflexivity.
    + eexists _, _. split; [reflexivity|]. split.
      * intros _. split; [reflexivity|]. eexists. reflexivity.
      * intros s' data' H Hok'. injection H as <- <-. congruence.
  - destruct (ok s) eqn:Hok; simpl.
    + eexists _, _. split; [reflexivity|]. split.
      * intros H. discriminate.
      * intros s' data' H. discriminate.
    + eexists _, _. split; [reflexivity|]. split.
      * intros _. split; [reflexivity|]. eexists. reflexivity.
      * intros s' data' H. discriminate.
Qed.

Lemma try_read_body {A B : Type} (b : A) (k : A -> M RouteWorld B)
    (h : exn -> M RouteWorld B) (w : RouteWorld) :
  try_catch (x <- read_body (Some b) ;; k x) h w = try_catch (k b) h w.
Proof. reflexivity. Qed.

(** X13.  The three [GET] routes (schema, activity, report status) behave
    like the table route.  Each makes exactly one [GET] call to its backend
    address, without a body.  When the fetch is rejected or the status is not
    2xx, the answer is the route's own [{error: ...}] with status 500 and the
    error is logged; when the backend answers 2xx with JSON, the answer is
    that JSON with status 200 and nothing is logged. *)
Theorem get_routes_outcomes (env : option string) (taskId : string)
    (r : FetchResult) (w : RouteWorld) :
  Forall
    (fun '(handler, url, message) =>
       exists (answer : NextResponse) (log : Console),
         handler r w
         = ({| console := log;
               calls := calls w ++ [ {| call_url := url; call_method := "GET";
                                        call_body := None |} ] |},
            inr answer)
         /\ (request_failed r = true ->
             answer = {| status := 500; body := VObj [("error", VStr message)] |}
             /\ exists e label, log = console w ++ [(label, e)])
         /\ (forall s data, r = Responded s (Some data) -> ok s = true ->
             answer = {| status := 200; body := data |} /\ log = console w))
    [ (schema_GET env, API_BASE_URL env +:+ "/api/schema",
       "Failed to fetch database schema");
      (activity_GET env, API_BASE_URL env +:+ "/api/activity",
       "Failed to fetch activity");
      (report_status_GET env taskId,
       API_BASE_URL env +:+ "/api/report/status/" +:+ taskId,
       "Failed to check report status") ].
Proof.
  repeat apply List.Forall_cons; try apply List.Forall_nil;
    unfold schema_GET, activity_GET, report_status_GET;
    match goal with
    | |- exists answer log,
          try_catch (response <- fetch ?c r ;; relay response)
                    (failure ?l ?m) w = _ /\ _ =>
        destruct (forwarded c l m r w) as (answer & log & E & Hf & Hs)
    end;
    exists answer, log; (split; [exact E|]); (split; [|exact Hs]);
    intros H; destruct (Hf H) as (-> & e & ->); (split; [reflexivity|]);
    eexists _, _; reflexivity.
Qed.

(** X14.  The three [POST] routes (analysis, report generation, upload)
    read the body of the request first.  When it cannot be read (it is not
    JSON, or not a form), the backend is not called at all and the answer is
    the route's [{error: ...}] with status 500.  When it can, exactly one
    [POST] call is made, carrying the body as it was read, and the answer is
    then as for the [GET] routes. *)
Theorem post_routes_outcomes (env : option string) (body0 : value)
    (fields : list (string * string)) (r : FetchResult) (w : RouteWorld) :
  Forall
    (fun '(handler, message) =>
       exists e label,
         handler r w
         = ({| console := console w ++ [(label, e)]; calls := calls w |},
            inr {| status := 500; body := VObj [("error", VStr message)] |}))
    [ (analysis_POST env None, "Failed to run analysis");
      (report_generate_POST env None, "Failed to generate report");
      (upload_POST env None, "Failed to upload file") ]
  /\ Forall
       (fun '(handler, url, payload, message) =>
          exists (answer : NextResponse) (log : Console),
            handler r w
            = ({| console := log;
                  calls := calls w ++ [ {| call_url := url; call_method := "POST";
                                           call_body := Some payload |} ] |},
               inr answer)
            /\ (request_failed r = true ->
                answer = {| status := 500; body := VObj [("error", VStr message)] |})
            /\ (forall s data, r = Responded s (Some data) -> ok s = true ->
                answer = {| status := 200; body := data |} /\ log = console w))
       [ (analysis_POST env (Some body0), API_BASE_URL env +:+ "/api/analysis",
          JsonText body0, "Failed to run analysis");
         (report_generate_POST env (Some body0),
          API_BASE_URL env +:+ "/api/report/generate",
          JsonText body0, "Failed to generate report");
         (upload_POST env (Some fields), API_BASE_URL env +:+ "/api/upload",
          FormData fields, "Failed to upload file") ].
Proof.
  split.
  - repeat apply List.Forall_cons; try apply List.Forall_nil;
      eexists _, _; reflexivity.
  - repeat apply List.Forall_cons; try apply List.Forall_nil;
      unfold analysis_POST, report_generate_POST, upload_POST;
      rewrite try_read_body;
      match goal with
      | |- exists answer log,
            try_catch (response <- fetch ?c r ;; relay response)
                      (failure ?l ?m) w = _ /\ _ =>
          destruct (forwarded c l m r w) as (answer & log & E & Hf & Hs)
      end;
      exists answer, log; (split; [exact E|]); (split; [|exact Hs]);
      intros H; destruct (Hf H) as (-> & _); reflexivity.
Qed.

Lemma get_routes_outcomes_witness :
  exists (answer : NextResponse) (log : Console),
    schema_GET None (Responded 503 None) {| console := []; calls := [] |}
    = ({| console := log;
          calls := [ {| call_url := "http://localhost:8000/api/schema";
                        call_method := "GET"; call_body := None |} ] |},
       inr answer)
    /\ answer = {| status := 500;
                   body := VObj [("error", VStr "Failed to fetch database schema")] |}.
Proof.
  pose proof (get_routes_outcomes None "t1" (Responded 503 None)
                {| console := []; calls := [] |}) as H.
  apply List.Forall_inv in H. destruct H as (answer & log & E & Hf & _).
  exists answer, log. split; [exact E|]. apply Hf. reflexivity.
Defined.

Lemma post_routes_outcomes_witness :
  exists (answer : NextResponse) (log : Console),
    analysis_POST None (Some (VObj [("query", VStr "Top 5 products")]))
      (Responded 200 (Some (VObj [("data", VArr [])])))
      {| console := []; calls := [] |}
    = ({| console := log;
          calls := [ {| call_url := "http://localhost:8000/api/analysis";
                        call_method := "POST";
                        call_body :=
                          Some (JsonText (VObj [("query", VStr "Top 5 products")])) |} ] |},
       inr answer)
    /\ answer = {| status := 200; body := VObj [("data", VArr [])] |}.
Proof.
  destruct (post_routes_outcomes None (VObj [("query", VStr "Top 5 products")]) []
              (Responded 200 (Some (VObj [("data", VArr [])])))
              {| console := []; calls := [] |}) as (_ & H).
  apply List.Forall_inv in H. destruct H as (answer & log & E & _ & Hs).
  exists answer, log. split; [exact E|].
  apply (Hs 200%Z (VObj [("data", VArr [])])); reflexivity.
Defined.

End RouteFacts.

(* ===================================================================== *)
(** * More on the report page *)
(* ===================================================================== *)

Section ReportQuery.
Import JS Eff Reports Examples.

Lemma append_assoc (a b c : string) : (a +:+ b) +:+ c = a +:+ (b +:+ c).
Proof.
  induction a as [|x a IH]; [reflexivity|].
  change (String x ((a +:+ b) +:+ c) = String x (a +:+ (b +:+ c))).
  rewrite IH. reflexivity.
Qed.

(** X15.  A click on "Generate Report" calls [generateReport] exactly when
    no report is being generated, and then with the query the page builds and
    the format [pdf]: the query is never blank, so the click is never dropped
    for want of notes.  While a report is being generated the click does
    nothing. *)
Theorem handleGenerate_calls (generateReport : ReportRequest -> M World unit)
    (p : Page) (w : World) :
  handleGenerate generateReport p w
  = if generating (hook w) then (w, inr tt)
    else generateReport {| query := buildQuery p; format := "pdf" |} w.
Proof.
  destruct (generating (hook w)) eqn:Hg.
  - apply handleGenerate_generating. exact Hg.
  - apply handleGenerate_idle. exact Hg.
Qed.

Lemma period_part_truthy (label : string) :
  truthy_string ("Time period: " +:+ label) = true.
Proof. reflexivity. Qed.

Lemma join_notes (a b n : string) :
  truthy_string b = true ->
  truthy_string n = true ->
  join " | " (List.filter truthy_string [a; b; n])
  = join " | " (List.filter truthy_string [a; b; ""]) +:+ " | " +:+ n.
Proof.
  intros Hb Hn. cbn [List.filter]. rewrite Hb, Hn. cbn [truthy_string].
  destruct (truthy_string a); cbn [join].
  - rewrite !append_assoc. reflexivity.
  - reflexivity.
Qed.

(** X16.  The notes enter the query trimmed and last.  Notes that are
    empty or white space only leave no trace: the query is the one built
    without notes.  Other notes are appended to that query after the
    separator " | ", without the white space around them. *)
Theorem buildQuery_notes (p : Page) :
  let without :=
    buildQuery {| reportType := reportType p; timePeriod := timePeriod p;
                  notes := "" |} in
  (trim (notes p) = "" -> buildQuery p = without)
  /\ (trim (notes p) <> "" -> buildQuery p = without +:+ " | " +:+ trim (notes p)).
Proof.
  intros without. unfold without, buildQuery. cbn [reportType timePeriod notes].
  change (trim "") with "".
  split.
  - intros ->. reflexivity.
  - intros Hn. apply join_notes.
    + apply period_part_truthy.
    + apply truthy_string_true. exact Hn.
Qed.

Lemma buildQuery_notes_witness :
  buildQuery {| reportType := "custom"; timePeriod := "year";
                notes := "  Top 5 cities " |}
  = "Custom analysis | Time period: Last Year | Top 5 cities"
  /\ buildQuery {| reportType := "custom"; timePeriod := "year"; notes := "   " |}
     = "Custom analysis | Time period: Last Year".
Proof.
  destruct (buildQuery_notes
              {| reportType := "custom"; timePeriod := "year";
                 notes := "  Top 5 cities " |}) as (_ & Hsome).
  destruct (buildQuery_notes
              {| reportType := "custom"; timePeriod := "year"; notes := "   " |})
    as (Hnone & _).
  split.
  - rewrite Hsome; [reflexivity|discriminate].
  - rewrite Hnone; reflexivity.
Defined.

End ReportQuery.

(* ===================================================================== *)
(** * The analysis page *)
(* ===================================================================== *)

Section AnalysisFacts.
Import JS Analysis.

Lemma In_firstn {A : Type} (n : nat) (l : list A) (x : A) :
  In x (firstn n l) -> In x l.
Proof.
  intros H. rewrite <- (firstn_skipn n l). apply in_or_app. left. exact H.
Qed.

Lemma NoDup_firstn {A : Type} (n : nat) (l : list A) :
  NoDup l -> NoDup (firstn n l).
Proof.
  intros H. rewrite <- (firstn_skipn n l) in H.
  apply NoDup_app in H. apply H.
Qed.

(** X17.  The history of queries keeps the most recent first.  After a
    successful run the query just run is at the head, it occurs nowhere else
    in the list even if it had been run before, every other entry was
    already in the history, the list has at most eight entries, and a
    history without repetition stays without repetition. *)
Theorem next_history_recent_first (trimmed : string) (prev : list string) :
  hd_error (next_history trimmed prev) = Some trimmed
  /\ ~ In trimmed (tl (next_history trimmed prev))
  /\ (forall x, In x (tl (next_history trimmed prev)) -> In x prev)
  /\ List.length (next_history trimmed prev) <= 8
  /\ (NoDup prev -> NoDup (next_history trimmed prev)).
Proof.
  unfold next_history. rewrite firstn_cons. cbn [hd_error tl].
  set (others := List.filter (fun item => negb (String.eqb item trimmed)) prev).
  assert (Hothers : forall x, In x others -> In x prev /\ x <> trimmed).
  { intros x Hx. apply filter_In in Hx as [Hin Hne]. split; [exact Hin|].
    apply negb_true_iff, String.eqb_neq in Hne. exact Hne. }
  split; [reflexivity|]. split; [|split; [|split]].
  - intros Hin. apply In_firstn in Hin. apply Hothers in Hin as [_ Hne]. congruence.
  - intros x Hin. apply In_firstn in Hin. apply Hothers in Hin. apply Hin.
  - simpl. pose proof (firstn_le_length 7 others). lia.
  - intros Hnd. apply NoDup_cons. split.
    + rewrite list_elem_of_In. intros Hin. apply In_firstn in Hin.
      apply Hothers in Hin as [_ Hne]. congruence.
    + apply NoDup_firstn. unfold others.
      apply NoDup_ListNoDup, List.NoDup_filter, NoDup_ListNoDup. exact Hnd.
Qed.

Lemma next_history_recent_first_witness :
  NoDup (next_history "Top 5 products" SUGGESTED_QUERIES)
  /\ next_history "Top 5 products" SUGGESTED_QUERIES
     = ["Top 5 products"; "Show sales by city"; "Revenue by quarter";
        "Customer analysis"].
Proof.
  destruct (next_history_recent_first "Top 5 products" SUGGESTED_QUERIES)
    as (_ & _ & _ & _ & Hnd).
  split; [|reflexivity]. apply Hnd.
  repeat (constructor; [rewrite ?elem_of_cons, elem_of_nil; intuition discriminate|]).
  constructor.
Defined.

(** X18.  Running an analysis.  A query that is blank once trimmed is
    ignored: the page does not change and no request is made.  Otherwise the
    request carries the trimmed query, and whatever comes back the page is no
    longer running afterwards.  On success the answer is stored and the query
    goes to the head of the history; on failure the result is cleared, the
    message of the error (or "Failed to run analysis" when the thrown value
    is no error) is shown, and the history is left as it was. *)
Theorem handleRunAnalysis_outcomes (outcome : RunOutcome) (p : Page) :
  (trim (query p) = "" ->
     handleRunAnalysis_begin p = (p, None) /\ handleRunAnalysis outcome p = p)
  /\ (trim (query p) <> "" ->
      let p' := handleRunAnalysis outcome p in
      option_map request_query (snd (handleRunAnalysis_begin p))
      = Some (trim (query p))
      /\ isRunning p' = false
      /\ query p' = query p
      /\ match outcome with
         | Resolved response =>
             result p' = response /\ analysisError p' = None
             /\ history p' = next_history (trim (query p)) (history p)
         | ThrewError message =>
             result p' = VNull /\ analysisError p' = Some message
             /\ history p' = history p
         | ThrewOther =>
             result p' = VNull /\ analysisError p' = Some "Failed to run analysis"
             /\ history p' = history p
         end).
Proof.
  unfold handleRunAnalysis, handleRunAnalysis_begin. split.
  - intros ->. split; reflexivity.
  - intros Hne. rewrite (truthy_string_true _ Hne). simpl.
    destruct outcome; repeat split.
Qed.

Lemma handleRunAnalysis_outcomes_witness :
  handleRunAnalysis (ThrewError "Backend error: 500")
    {| query := "   "; selectedTable := ""; history := SUGGESTED_QUERIES;
       result := VNull; analysisError := None; isRunning := false |}
  = {| query := "   "; selectedTable := ""; history := SUGGESTED_QUERIES;
       result := VNull; analysisError := None; isRunning := false |}
  /\ history (handleRunAnalysis (Resolved (VObj [("data", VArr [])]))
                {| query := " Top 5 products "; selectedTable := "";
                   history := SUGGESTED_QUERIES; result := VNull;
                   analysisError := None; isRunning := false |})
     = next_history "Top 5 products" SUGGESTED_QUERIES.
Proof.
  split.
  - apply (handleRunAnalysis_outcomes (ThrewError "Backend error: 500")
             {| query := "   "; selectedTable := ""; history := SUGGESTED_QUERIES;
                result := VNull; analysisError := None; isRunning := false |}).
    reflexivity.
  - destruct (handleRunAnalysis_outcomes (Resolved (VObj [("data", VArr [])]))
                {| query := " Top 5 products "; selectedTable := "";
                   history := SUGGESTED_QUERIES; result := VNull;
                   analysisError := None; isRunning := false |}) as (_ & H).
    destruct H as (_ & _ & _ & _ & _ & Hh); [discriminate|]. exact Hh.
Defined.

(** X19.  The table of results is computed without ever throwing, whatever
    the answer of the analysis is.  The rows are the [data] of the answer when
    that is an array and none otherwise (no answer yet, an answer without
    [data], a [data] that is not an array); the column names are the keys of
    the first row when it is an object, and none when there is no row or the
    first row is [null] or a primitive. *)
Theorem columnNames_total (p : Page) :
  exists (rows0 : list value) (names : list string),
    rows p = inr rows0
    /\ columnNames p = inr names
    /\ (forall items, get_opt (result p) "data" = inr (VArr items) -> rows0 = items)
    /\ (forall d, get_opt (result p) "data" = inr d -> isArray d = false -> rows0 = [])
    /\ (rows0 = [] -> names = [])
    /\ (forall props rest, rows0 = VObj props :: rest -> names = map fst props)
    /\ (forall first rest, rows0 = first :: rest -> typeof_object first = false
                           \/ first = VNull -> names = []).
Proof.
  unfold columnNames, rows.
  destruct (get_opt_defined (result p) "data") as (d & ->).
  assert (G : forall rows0, exists names,
             columnNames_of rows0 = inr names
             /\ (rows0 = [] -> names = [])
             /\ (forall props rest, rows0 = VObj props :: rest -> names = map fst props)
             /\ (forall first rest, rows0 = first :: rest ->
                   typeof_object first = false \/ first = VNull -> names = [])).
  { intros [|first rest].
    - exists []. repeat split; intros; discriminate.
    - unfold columnNames_of. simpl.
      destruct first; simpl; eexists; (split; [reflexivity|]);
        (split; [intros; discriminate|]);
        (split; [intros props' rest' H; inversion H; reflexivity|]);
        intros first' rest' H [Ht|Hn]; inversion H; subst;
        try reflexivity; try discriminate. }
  destruct d as [| | | | |items|];
    match goal with
    | |- context [@inr exn (list value) ?rs] =>
        destruct (G rs) as (names & E & H1 & H2 & H3); exists rs, names
    end;
    (split; [reflexivity|]); (split; [exact E|]);
    (split; [intros items' H; try discriminate; injection H as <-; reflexivity|]);
    (split; [intros d' H Hd; injection H as <-; try reflexivity; discriminate|]);
    (split; [exact H1|]); (split; [exact H2|exact H3]).
Qed.

Lemma columnNames_total_witness :
  columnNames
    {| query := ""; selectedTable := ""; history := [];
       result := VObj [("data", VArr [VObj [("city", VStr "Oslo"); ("sales", VNum 3)]])];
       analysisError := None; isRunning := false |}
  = inr ["city"; "sales"].
Proof.
  destruct (columnNames_total
              {| query := ""; selectedTable := ""; history := [];
                 result := VObj [("data", VArr [VObj [("city", VStr "Oslo");
                                                      ("sales", VNum 3)]])];
                 analysisError := None; isRunning := false |})
    as (rows0 & names & _ & E & Hrows & _ & _ & Hnames & _).
  rewrite E. f_equal.
  apply (Hnames [("city", VStr "Oslo"); ("sales", VNum 3)] []).
  apply Hrows. reflexivity.
Defined.

End AnalysisFacts.

(* ===================================================================== *)
(** * Dark mode and navigation *)
(* ===================================================================== *)

Section DarkModeFacts.
Import DarkMode.

(** After the mount effect and after every toggle, the class of the
    document agrees with the state; a toggle flips the state and stores it as
    the text of the boolean; from a state reached by a toggle, two more
    toggles lead back to it. *)
Lemma dark_mode_consistent (prefersDark : bool) (b : Browser) :
  classDark (mount prefersDark b) = isDark (mount prefersDark b)
  /\ showsToggle (mount prefersDark b) = true
  /\ classDark (toggleDarkMode b) = isDark (toggleDarkMode b)
  /\ isDark (toggleDarkMode b) = negb (isDark b)
  /\ stored (toggleDarkMode b) = Some (String_of_bool (negb (isDark b)))
  /\ toggleDarkMode (toggleDarkMode (toggleDarkMode b)) = toggleDarkMode b.
Proof.
  destruct b as [d m c s]. unfold toggleDarkMode, mount, updateDarkMode. simpl.
  repeat split. rewrite negb_involutive. reflexivity.
Qed.

(** X20.  What a reload keeps of the choice.  The mount effect takes the
    page for dark when the stored item is the text [true] or the system
    prefers dark.  Hence a switch to dark survives a reload on every system;
    a switch to light survives it only where the system does not prefer
    dark: there the stored [false] is overruled and the page comes back
    dark. *)
Theorem dark_mode_reload (prefersDark : bool) (b : Browser) :
  isDark (mount prefersDark (loaded (stored (toggleDarkMode b))))
  = negb (isDark b) || prefersDark.
Proof.
  destruct b as [[|] m c s]; destruct prefersDark; reflexivity.
Qed.

Example light_choice_overruled :
  isDark (mount true (loaded (stored (toggleDarkMode
            {| isDark := true; mounted := true; classDark := true;
               stored := Some "true" |})))) = true.
Proof. reflexivity. Qed.

End DarkModeFacts.

Section LayoutFacts.
Import Layout.

(** X21.  At most one entry of the navigation is highlighted, whatever the
    path is; one is when the path is exactly the address of an entry, and
    none on any other path, a page below an entry included. *)
Theorem navigation_one_active (pathname : string) :
  List.length (List.filter (isActive pathname) navigation) <= 1
  /\ (In pathname (map href navigation) ->
      List.length (List.filter (isActive pathname) navigation) = 1)
  /\ (~ In pathname (map href navigation) ->
      List.filter (isActive pathname) navigation = []).
Proof.
  unfold navigation, isActive. cbn [List.filter href map].
  destruct (String.eqb_spec pathname "/") as [->|H1];
    [simpl; split; [lia|split; [reflexivity|intros H; exfalso; apply H; tauto]]|].
  destruct (String.eqb_spec pathname "/explorer") as [->|H2];
    [simpl; split; [lia|split; [reflexivity|intros H; exfalso; apply H; tauto]]|].
  destruct (String.eqb_spec pathname "/analysis") as [->|H3];
    [simpl; split; [lia|split; [reflexivity|intros H; exfalso; apply H; tauto]]|].
  destruct (String.eqb_spec pathname "/reports") as [->|H4];
    [simpl; split; [lia|split; [reflexivity|intros H; exfalso; apply H; tauto]]|].
  destruct (String.eqb_spec pathname "/upload") as [->|H5];
    [simpl; split; [lia|split; [reflexivity|intros H; exfalso; apply H; tauto]]|].
  destruct (String.eqb_spec pathname "/settings") as [->|H6];
    [simpl; split; [lia|split; [reflexivity|intros H; exfalso; apply H; tauto]]|].
  simpl. split; [lia|]. split; [|reflexivity].
  intros [E|[E|[E|[E|[E|[E|[]]]]]]]; congruence.
Qed.

Lemma navigation_one_active_witness :
  List.length (List.filter (isActive "/reports") navigation) = 1
  /\ List.filter (isActive "/reports/7") navigation = [].
Proof.
  destruct (navigation_one_active "/reports") as (_ & Hone & _).
  destruct (navigation_one_active "/reports/7") as (_ & _ & Hnone).
  split.
  - apply Hone. simpl. tauto.
  - apply Hnone. simpl. intros [E|[E|[E|[E|[E|[E|[]]]]]]]; discriminate.
Defined.

End LayoutFacts.

(* ===================================================================== *)
(** * The settings page *)
(* ===================================================================== *)

Section SettingsFacts.
Import JS Eff Fetch Settings.

Lemma lookup_set_prop (k k' : string) (v : value) (props : list (string * value)) :
  lookup_prop k (set_prop k' v props)
  = if String.eqb k' k then v else lookup_prop k props.
Proof.
  induction props as [|[k0 v0] rest IH]; simpl.
  - reflexivity.
  - destruct (String.eqb_spec k0 k') as [->|Hne]; simpl.
    + destruct (String.eqb k' k); reflexivity.
    + rewrite IH. destruct (String.eqb_spec k0 k) as [->|Hne'].
      * destruct (String.eqb_spec k' k) as [->|_]; [congruence|reflexivity].
      * reflexivity.
Qed.

Lemma keys_set_prop (k : string) (v : value) (props : list (string * value)) :
  map fst (set_prop k v props)
  = if existsb (String.eqb k) (map fst props) then map fst props
    else map fst props ++ [k].
Proof.
  induction props as [|[k0 v0] rest IH]; simpl; [reflexivity|].
  rewrite (String.eqb_sym k k0).
  destruct (String.eqb_spec k0 k) as [->|Hne]; simpl; [reflexivity|].
  rewrite IH. destruct (existsb _ _); reflexivity.
Qed.

Lemma existsb_eqb_In (k : string) (keys : list string) :
  existsb (String.eqb k) keys = true <-> In k keys.
Proof.
  rewrite existsb_exists. split.
  - intros (x & Hx & E). apply String.eqb_eq in E. subst. exact Hx.
  - intros H. exists k. split; [exact H|apply String.eqb_refl].
Qed.

Lemma lookup_missing (k : string) (props : list (string * value)) :
  ~ In k (map fst props) -> lookup_prop k props = VUndefined.
Proof.
  induction props as [|[k0 v0] rest IH]; simpl; intros H; [reflexivity|].
  destruct (String.eqb_spec k0 k) as [->|_]; [tauto|]. apply IH. tauto.
Qed.

(** A spread takes the source's value for the keys the source has and the
    target's for the others. *)
Lemma lookup_spread (k : string) (src target : list (string * value)) :
  NoDup (map fst src) ->
  lookup_prop k
    (fold_left (fun acc kv => set_prop (fst kv) (snd kv) acc) src target)
  = if existsb (String.eqb k) (map fst src) then lookup_prop k src
    else lookup_prop k target.
Proof.
  revert target. induction src as [|[k1 v1] rest IH]; intros target Hnd; simpl.
  - reflexivity.
  - apply NoDup_cons in Hnd as [Hnot Hrest]. rewrite list_elem_of_In in Hnot.
    rewrite IH by exact Hrest. rewrite lookup_set_prop.
    rewrite (String.eqb_sym k k1).
    destruct (String.eqb_spec k1 k) as [->|Hne]; simpl.
    + destruct (existsb (String.eqb k) (map fst rest)) eqn:E; [|reflexivity].
      apply existsb_eqb_In in E. tauto.
    + reflexivity.
Qed.

Lemma keys_spread_superset (k : string) (src target : list (string * value)) :
  In k (map fst target) ->
  In k (map fst (fold_left (fun acc kv => set_prop (fst kv) (snd kv) acc) src target)).
Proof.
  revert target. induction src as [|[k1 v1] rest IH]; intros target H; simpl;
    [exact H|].
  apply IH. rewrite keys_set_prop.
  destruct (existsb _ _); [exact H|]. apply in_or_app. left. exact H.
Qed.

Lemma NoDup_keys_set_prop (k : string) (v : value) (props : list (string * value)) :
  NoDup (map fst props) -> NoDup (map fst (set_prop k v props)).
Proof.
  intros H. rewrite keys_set_prop.
  destruct (existsb (String.eqb k) (map fst props)) eqn:E; [exact H|].
  apply NoDup_app. split; [exact H|]. split; [|apply NoDup_singleton].
  intros x Hx Hx'. rewrite elem_of_cons, elem_of_nil in Hx'.
  destruct Hx' as [->|[]].
  apply list_elem_of_In, existsb_eqb_In in Hx. congruence.
Qed.

Lemma NoDup_keys_spread (src target : list (string * value)) :
  NoDup (map fst target) ->
  NoDup (map fst (fold_left (fun acc kv => set_prop (fst kv) (snd kv) acc) src target)).
Proof.
  revert target. induction src as [|[k1 v1] rest IH]; intros target H; simpl;
    [exact H|].
  apply IH, NoDup_keys_set_prop, H.
Qed.

Lemma DEFAULT_SETTINGS_complete (env : option string) :
  complete env (DEFAULT_SETTINGS env).
Proof.
  split; [|auto]. unfold DEFAULT_SETTINGS. simpl.
  repeat (constructor; [rewrite ?elem_of_cons, elem_of_nil; intuition discriminate|]).
  constructor.
Qed.

(** X22.  What the page loads at mount.  With no stored item, or an empty
    one, the settings stay as they are.  With an item that is not JSON the
    settings are the defaults.  With a JSON item the settings are the
    defaults overlaid with what is stored: a key takes the stored value when
    the stored object has it and the default otherwise, so that an item
    written by an older version, lacking some key, still gives a full
    setting; a stored number, boolean or [null] changes nothing of the
    defaults. *)
Theorem settings_loaded_over_defaults (env : option string) (w : World) :
  (storage w = None \/ storage w = Some (RawItem "") -> mount env w = w)
  /\ (forall s, storage w = Some (RawItem s) -> s <> "" ->
        settings (page (mount env w)) = DEFAULT_SETTINGS env)
  /\ (forall parsed k,
        storage w = Some (JsonItem parsed) ->
        NoDup (map fst (own_props parsed)) ->
        lookup_prop k (settings (page (mount env w)))
        = if existsb (String.eqb k) (map fst (own_props parsed))
          then lookup_prop k (own_props parsed)
          else lookup_prop k (DEFAULT_SETTINGS env))
  /\ (forall parsed,
        storage w = Some (JsonItem parsed) ->
        own_props parsed = [] ->
        settings (page (mount env w)) = DEFAULT_SETTINGS env).
Proof.
  unfold mount. split; [|split; [|split]].
  - intros [->| ->]; reflexivity.
  - intros s -> Hs. simpl. rewrite (truthy_string_true s Hs). reflexivity.
  - intros parsed k -> Hnd. simpl. unfold spread_into.
    apply lookup_spread. exact Hnd.
  - intros parsed -> Hnone. simpl. unfold spread_into. rewrite Hnone. reflexivity.
Qed.

Lemma settings_loaded_over_defaults_witness :
  lookup_prop "theme"
    (settings (page (mount None
       {| page := initial_page None;
          storage := Some (JsonItem (VObj [("theme", VStr "dark")])) |})))
  = VStr "dark"
  /\ lookup_prop "language"
       (settings (page (mount None
          {| page := initial_page None;
             storage := Some (JsonItem (VObj [("theme", VStr "dark")])) |})))
     = VStr "en"
  /\ settings (page (mount None
        {| page := initial_page None; storage := Some (RawItem "{oops") |}))
     = DEFAULT_SETTINGS None.
Proof.
  destruct (settings_loaded_over_defaults None
              {| page := initial_page None;
                 storage := Some (JsonItem (VObj [("theme", VStr "dark")])) |})
    as (_ & _ & Hjson & _).
  destruct (settings_loaded_over_defaults None
              {| page := initial_page None; storage := Some (RawItem "{oops") |})
    as (_ & Hraw & _).
  split; [|split].
  - rewrite (Hjson (VObj [("theme", VStr "dark")]) "theme"); [reflexivity|reflexivity|].
    simpl. apply NoDup_singleton.
  - rewrite (Hjson (VObj [("theme", VStr "dark")]) "language"); [reflexivity|reflexivity|].
    simpl. apply NoDup_singleton.
  - apply (Hraw "{oops"); [reflexivity|discriminate].
Defined.

(** X23.  Saving and loading again.  After a save that the storage takes,
    a page loaded afresh reads every setting as it was saved, provided the
    settings had every key of the defaults, each once (which the defaults
    have and every change keeps).  After a save that the storage refuses, the
    stored item is what it was.  After a reset nothing is stored and a page
    loaded afresh shows the defaults. *)
Theorem settings_round_trip (env : option string) (w : World) :
  (complete env (settings (page w)) ->
   forall k,
     lookup_prop k
       (settings (page (mount env {| page := initial_page env;
                                     storage := storage (handleSave true w) |})))
     = lookup_prop k (settings (page w)))
  /\ storage (handleSave false w) = storage w
  /\ saveMessage (page (handleSave false w)) = Some "Failed to save settings."
  /\ isSaving (page (handleSave true w)) = false
  /\ isSaving (page (handleSave false w)) = false
  /\ mount env {| page := initial_page env; storage := storage (handleReset env w) |}
     = {| page := initial_page env; storage := None |}.
Proof.
  split; [|repeat split].
  intros [Hnd Hall] k. simpl. unfold spread_into. simpl own_props.
  rewrite lookup_spread by exact Hnd.
  destruct (existsb (String.eqb k) (map fst (settings (page w)))) eqn:E;
    [reflexivity|].
  assert (Hk : ~ In k (map fst (settings (page w)))).
  { intros Hin. apply existsb_eqb_In in Hin. congruence. }
  rewrite (lookup_missing k (settings (page w)) Hk).
  apply lookup_missing. intros Hin. apply Hk, Hall, Hin.
Qed.

Lemma settings_round_trip_witness :
  lookup_prop "language"
    (settings (page (mount None
       {| page := initial_page None;
          storage := storage (handleSave true
                                (handleChange "language" (VStr "fr")
                                   {| page := initial_page None; storage := None |})) |})))
  = VStr "fr".
Proof.
  destruct (settings_round_trip None
              (handleChange "language" (VStr "fr")
                 {| page := initial_page None; storage := None |})) as (H & _).
  rewrite H; [reflexivity|].
  split; [|simpl; tauto]. simpl.
  repeat (constructor; [rewrite ?elem_of_cons, elem_of_nil; intuition discriminate|]).
  constructor.
Defined.

(** X24.  A change sets the one key it names and leaves the other settings
    alone; it keeps the settings complete; and it is not stored: the item in
    the storage changes only when the settings are saved or reset. *)
Theorem handleChange_frame (env : option string) (key : string) (v : value)
    (w : World) :
  lookup_prop key (settings (page (handleChange key v w))) = v
  /\ (forall k, k <> key ->
        lookup_prop k (settings (page (handleChange key v w)))
        = lookup_prop k (settings (page w)))
  /\ (complete env (settings (page w)) ->
      complete env (settings (page (handleChange key v w))))
  /\ storage (handleChange key v w) = storage w.
Proof.
  simpl. split; [|split; [|split; [|reflexivity]]].
  - rewrite lookup_set_prop, String.eqb_refl. reflexivity.
  - intros k Hk. rewrite lookup_set_prop.
    destruct (String.eqb_spec key k) as [->|_]; [congruence|reflexivity].
  - intros [Hnd Hall]. split.
    + apply NoDup_keys_set_prop, Hnd.
    + intros k Hk. rewrite keys_set_prop.
      destruct (existsb _ _); [apply Hall, Hk|].
      apply in_or_app. left. apply Hall, Hk.
Qed.

Lemma handleChange_frame_witness :
  complete None
    (settings (page (handleChange "theme" (VStr "dark")
                       {| page := initial_page None; storage := None |})))
  /\ lookup_prop "apiKey"
       (settings (page (handleChange "theme" (VStr "dark")
                          {| page := initial_page None; storage := None |})))
     = VStr "".
Proof.
  destruct (handleChange_frame None "theme" (VStr "dark")
              {| page := initial_page None; storage := None |})
    as (_ & Hother & Hcomplete & _).
  split.
  - apply Hcomplete. apply DEFAULT_SETTINGS_complete.
  - rewrite Hother; [reflexivity|discriminate].
Defined.

(** ** Conversion to a string *)

Lemma ToString_string (double_text : Z -> string) (text : string) :
  ToString double_text (VStr text) = inr text.
Proof. reflexivity. Qed.

(** The integers up to [MAX_SAFE_INTEGER] are printed by their digits. *)
Lemma ToString_safe_integer (double_text : Z -> string) (n : Z) :
  (Z.abs n <= MAX_SAFE_INTEGER)%Z ->
  ToString double_text (VNum n) = inr (toString n).
Proof.
  intros Hn. simpl. unfold Number_toString.
  apply Z.leb_le in Hn. rewrite Hn. reflexivity.
Qed.

(** A plain object converts exactly when it has no own [toString]. *)
Lemma ToString_object (double_text : Z -> string) (props : list (string * value)) :
  (has_own "toString" props = false ->
     ToString double_text (VObj props) = inr "[object Object]")
  /\ (has_own "toString" props = true ->
        exists e, ToString double_text (VObj props) = inl e).
Proof.
  simpl. destruct (has_own "toString" props); split; intros H;
    try discriminate; [eexists|]; reflexivity.
Qed.

Example ToString_array (double_text : Z -> string) :
  ToString double_text (VArr [VNum 1; VNull; VStr "a"; VArr [VBool true; VNum 2]])
  = inr "1,,a,true,2".
Proof. reflexivity. Qed.

Example ToString_array_throws (double_text : Z -> string) :
  ToString double_text (VArr [VNum 1; VObj [("toString", VNum 0)]; VStr "a"])
  = inl (TypeError "Cannot convert object to primitive value").
Proof. reflexivity. Qed.

(** ** The connection test *)




(** A body whose [status] is an object with an own [toString]: the
    template throws after the status was set to "success", and the test
    ends as an error. *)
Example testConnection_unprintable_status (double_text : Z -> string) :
  testStatus (fst (testConnection double_text
                     (Responded 200
                        (Some (VObj [("status", VObj [("toString", VNum 1)])])))
                     (initial_page None)))
  = error.
Proof. reflexivity. Qed.

(** A body whose [status] is an integer: its digits are the message. *)
Example testConnection_numeric_status (double_text : Z -> string) :
  testMessage (fst (testConnection double_text
                      (Responded 200 (Some (VObj [("status", VNum 200)])))
                      (initial_page None)))
  = "Connected: 200".
Proof. reflexivity. Qed.

(** Beyond [MAX_SAFE_INTEGER] the message is what JavaScript prints for the
    number, not the digits of the integer. *)
Example testConnection_large_status (double_text : Z -> string) :
  testMessage (fst (testConnection double_text
                      (Responded 200
                         (Some (VObj [("status", VNum 1000000000000000000000%Z)])))
                      (initial_page None)))
  = "Connected: " +:+ double_text 1000000000000000000000%Z.
Proof. reflexivity. Qed.

End SettingsFacts.

(* ===================================================================== *)
(** * The upload page *)
(* ===================================================================== *)

Section UploadFacts.
Import JS Upload.

(** X26.  Dropping files.  Nothing happens for no file list or an empty
    one.  Otherwise only the first file of the list is uploaded, whatever
    follows it, and one entry is put in front of the list of uploads, marked
    as processing, the entries already there keeping their order.  When the
    upload has answered, the list has the same length; every entry with
    another identifier is what it was; an entry with the identifier of the
    upload keeps its identifier, name and size and is marked a success when
    the answer is truthy and an error otherwise, with the hook's error or
    "Upload failed" as its message. *)
Theorem handleFiles_frame (formatBytes_float : Z -> string) (now : Z)
    (uploads : list UploadedFile) :
  (forall fileList, fileList = None \/ fileList = Some [] ->
     handleFiles_begin formatBytes_float fileList now uploads = (uploads, None))
  /\ (forall file more,
        exists entry,
          handleFiles_begin formatBytes_float (Some (file :: more)) now uploads
          = (entry :: uploads, Some (id entry, file))
          /\ id entry = toString now +:+ "-" +:+ file_name file
          /\ name entry = file_name file
          /\ status entry = status_processing)
  /\ (forall uploadId response error0,
        List.length (handleFiles_resume uploadId response error0 uploads)
        = List.length uploads
        /\ (forall i entry, uploads !! i = Some entry -> id entry <> uploadId ->
              handleFiles_resume uploadId response error0 uploads !! i = Some entry)
        /\ (forall i entry, uploads !! i = Some entry -> id entry = uploadId ->
              exists entry',
                handleFiles_resume uploadId response error0 uploads !! i = Some entry'
                /\ id entry' = id entry /\ name entry' = name entry
                /\ size entry' = size entry
                /\ status entry' = (if truthy response then status_success
                                    else status_error)
                /\ (truthy response = false ->
                    error entry' = Some "Upload failed"
                    \/ exists e, error0 = Some e /\ e <> "" /\ error entry' = Some e))).
Proof.
  split; [|split].
  - intros fileList [->| ->]; reflexivity.
  - intros file more.
    exists {| id := toString now +:+ "-" +:+ file_name file; name := file_name file;
              size := formatBytes formatBytes_float (file_size file);
              rows := VNum 0; tableName := VStr "Pending";
              status := status_processing; error := None |}.
    repeat split.
  - intros uploadId response error0. unfold handleFiles_resume.
    split; [apply length_map|]. split.
    + intros i entry Hi Hne. rewrite (map_lookup_Some _ _ _ _ Hi).
      apply String.eqb_neq in Hne. rewrite Hne. reflexivity.
    + intros i entry Hi He. rewrite (map_lookup_Some _ _ _ _ Hi).
      apply String.eqb_eq in He. rewrite He.
      destruct (truthy response); eexists; (split; [reflexivity|]); simpl;
        repeat split; try discriminate.
      intros _. destruct error0 as [e|]; [|left; reflexivity].
      destruct e as [|c e]; [left; reflexivity|].
      right. eexists. repeat split. discriminate.
Qed.

Lemma handleFiles_frame_witness :
  handleFiles_begin (fun _ => "1.0 KB") (Some []) 1000 [] = ([], None)
  /\ List.length
       (handleFiles_resume "1000-sales.csv" VNull None
          (fst (handleFiles_begin (fun _ => "1.0 KB")
                  (Some [mkFile "sales.csv" 1024; mkFile "other.csv" 10]) 1000 [])))
     = 1.
Proof.
  destruct (handleFiles_frame (fun _ => "1.0 KB") 1000 []) as (Hnone & _ & _).
  destruct (handleFiles_frame (fun _ => "1.0 KB") 1000
              (fst (handleFiles_begin (fun _ => "1.0 KB")
                      (Some [mkFile "sales.csv" 1024; mkFile "other.csv" 10]) 1000 [])))
    as (_ & _ & Hresume).
  split.
  - apply Hnone. right. reflexivity.
  - destruct (Hresume "1000-sales.csv" VNull None) as (Hlen & _). exact Hlen.
Defined.

End UploadFacts.

(* ===================================================================== *)
(** * The explorer page behind the table route *)
(* ===================================================================== *)

Section ExplorerFacts.
Import JS Eff Fetch Explorer.

(** X27.  How a failure of the backend reaches the explorer.  The page
    reads the body of whatever the table route answers and does not look at
    the status.  So when the backend fails, the route's [{error: ...}] with
    status 500 becomes the table data: the page stops loading, shows no
    error, and its export buttons are disabled, there being no sample data in
    that body.  When the backend answers 2xx with JSON, that JSON is the table
    data.  With no table selected nothing is fetched. *)
Theorem explorer_behind_proxy (backend : FetchResult) (p : Page) :
  (selectedTable p = "" -> load_table_begin p = (p, None))
  /\ (selectedTable p <> "" ->
      snd (load_table_begin p) = Some ("/api/tables/" +:+ selectedTable p)
      /\ loading (fst (load_table_begin p)) = true)
  /\ (request_failed backend = true ->
      let p' := load_table_resume (through_proxy backend) (fst (load_table_begin p)) in
      tableData p' = VObj [("error", VStr "Failed to fetch table information")]
      /\ loading p' = false
      /\ error p' = error p
      /\ export_disabled p' = true)
  /\ (forall s data, backend = Responded s (Some data) -> ok s = true ->
      let p' := load_table_resume (through_proxy backend) (fst (load_table_begin p)) in
      tableData p' = data /\ loading p' = false /\ error p' = error p).
Proof.
  split; [|split; [|split]].
  - intros H. unfold load_table_begin. rewrite H. reflexivity.
  - intros H. unfold load_table_begin. rewrite (truthy_string_true _ H).
    split; reflexivity.
  - intros Hf.
    assert (E : through_proxy backend
                = Responded 500 (Some (VObj [("error",
                                              VStr "Failed to fetch table information")]))).
    { unfold through_proxy, TableRoute.GET, try_catch, TableRoute.GET_try.
      destruct backend as [|s b]; simpl in *; [reflexivity|].
      apply negb_true_iff in Hf. rewrite Hf. reflexivity. }
    rewrite E. unfold load_table_begin.
    destruct (negb (truthy_string (selectedTable p))); repeat split.
  - intros s data -> Hok.
    assert (E : through_proxy (Responded s (Some data)) = Responded 200 (Some data)).
    { unfold through_proxy, TableRoute.GET, try_catch, TableRoute.GET_try.
      rewrite Hok. reflexivity. }
    rewrite E. unfold load_table_begin.
    destruct (negb (truthy_string (selectedTable p))); repeat split.
Qed.

Lemma explorer_behind_proxy_witness :
  shows_error
    (load_table_resume (through_proxy (Responded 503 None))
       (fst (load_table_begin
               {| selectedTable := "sales"; tableData := VNull; loading := false;
                  error := None |}))) = false
  /\ tableData
       (load_table_resume (through_proxy (Responded 503 None))
          (fst (load_table_begin
                  {| selectedTable := "sales"; tableData := VNull; loading := false;
                     error := None |})))
     = VObj [("error", VStr "Failed to fetch table information")].
Proof.
  destruct (explorer_behind_proxy (Responded 503 None)
              {| selectedTable := "sales"; tableData := VNull; loading := false;
                 error := None |}) as (_ & _ & Hfail & _).
  destruct Hfail as (Hdata & _ & Herr & _); [reflexivity|].
  split; [|exact Hdata].
  unfold shows_error. rewrite Herr. reflexivity.
Defined.

End ExplorerFacts.
